(** * DataManager: storing and retrieving stock data, price look-up
      tables and strategy files

    A shallow embedding of [DataManager.py].  Python values are modelled
    as follows.

    - [str] is [string].  The CSV and strategy files are ASCII text; on
      characters from code 128 on, [upper] and [is_space] below act as
      on any other character that is neither a letter nor white space.
    - a list is a [list], a [set] of strings is a [gset string], the
      [price_lookup] dictionary is a [gmap string pyfloat].
    - the files below the data directory are a finite map from file
      names to file contents.
    - an exception is a value of [exn], carried by the error monad
      [res]. *)

From Stdlib Require Import Ascii String.
From stdpp Require Import gmap strings list fin_maps.

Local Open Scope string_scope.
Local Open Scope list_scope.

(** ** Exceptions *)

Inductive exn : Set :=
  | IndexError
  | ValueError
  | StopIteration
  | UnboundLocalError
  | OverflowError.

Inductive res (A : Type) : Type :=
  | Ok (a : A)
  | Raise (e : exn).

Arguments Ok {A} a.
Arguments Raise {A} e.

#[global] Instance res_ret : MRet res := fun A a => Ok a.
#[global] Instance res_bind : MBind res := fun A B f m =>
  match m with
  | Ok a => f a
  | Raise e => Raise e
  end.

Definition is_ok {A} (r : res A) : bool :=
  match r with Ok _ => true | Raise _ => false end.

(** ** Built-in string operations *)

Module Str.

(** [c.isspace()] on ASCII: tab, line feed, vertical tab, form feed,
    carriage return, the four separators 28 to 31 and the space. *)
Definition is_space (c : ascii) : bool :=
  let n := nat_of_ascii c in
  (((9 <=? n) && (n <=? 13)) || ((28 <=? n) && (n <=? 32)))%nat.

Definition upper_char (c : ascii) : ascii :=
  let n := nat_of_ascii c in
  if ((97 <=? n) && (n <=? 122))%nat then ascii_of_nat (n - 32) else c.

(** [s.upper()] *)
Fixpoint upper (s : string) : string :=
  match s with
  | EmptyString => EmptyString
  | String c s' => String (upper_char c) (upper s')
  end.

(** [s.lstrip()] *)
Fixpoint lstrip (s : string) : string :=
  match s with
  | EmptyString => EmptyString
  | String c s' => if is_space c then lstrip s' else s
  end.

(** [s.rstrip()] *)
Fixpoint rstrip (s : string) : string :=
  match s with
  | EmptyString => EmptyString
  | String c s' =>
      match rstrip s' with
      | EmptyString => if is_space c then EmptyString else String c EmptyString
      | r => String c r
      end
  end.

(** [s.strip()] *)
Definition strip (s : string) : string := rstrip (lstrip s).

(** [s.split(sep)] for a separator of one character: never empty,
    adjacent separators give empty fields. *)
Fixpoint split (sep : ascii) (s : string) : list string :=
  match s with
  | EmptyString => [EmptyString]
  | String c s' =>
      if decide (c = sep) then EmptyString :: split sep s'
      else match split sep s' with
           | [] => [String c EmptyString]
           | f :: fs => String c f :: fs
           end
  end.

(** [sep.join(l)] *)
Fixpoint join (sep : string) (l : list string) : string :=
  match l with
  | [] => EmptyString
  | [x] => x
  | x :: l' => x +:+ sep +:+ join sep l'
  end.

(** [c in s] for a character [c] *)
Fixpoint contains (c : ascii) (s : string) : bool :=
  match s with
  | EmptyString => false
  | String c' s' => bool_decide (c' = c) || contains c s'
  end.

End Str.

(** ** List indexing *)

(** [l[i]] for [i >= 0] *)
Definition py_index {A} (l : list A) (i : nat) : res A :=
  match l !! i with
  | Some x => Ok x
  | None => Raise IndexError
  end.

(** [l[-1]] *)
Definition py_last {A} (l : list A) : res A :=
  match last l with
  | Some x => Ok x
  | None => Raise IndexError
  end.

(** ** Text files *)

Module TextFile.

Definition LF : ascii := "010"%char.
Definition CR : ascii := "013"%char.

(** ['\n'] *)
Definition newline : string := String LF EmptyString.

(** Reading in text mode translates the line ends CR LF and CR to LF. *)
Fixpoint universal_newlines (s : string) : string :=
  match s with
  | EmptyString => EmptyString
  | String c s' =>
      if decide (c = CR) then
        match s' with
        | String c' s'' =>
            if decide (c' = LF) then String LF (universal_newlines s'')
            else String LF (universal_newlines s')
        | EmptyString => String LF EmptyString
        end
      else String c (universal_newlines s')
  end.

(** The lines of a text, each with its line end; a last line without
    a line end is a line too. *)
Fixpoint lines_keepends (s : string) : list string :=
  match s with
  | EmptyString => []
  | String c s' =>
      if decide (c = LF) then String LF EmptyString :: lines_keepends s'
      else match lines_keepends s' with
           | [] => [String c EmptyString]
           | l :: ls => String c l :: ls
           end
  end.

(** [for line in file] for a file opened with mode ['r'] *)
Definition iter_lines (content : string) : list string :=
  lines_keepends (universal_newlines content).

End TextFile.

(** ** The data directory *)

(** The files on disk: file name to content. *)
Abbreviation files := (gmap string string).

(** A row [[date, open, high, low, close, volume]]. *)
Abbreviation row := (list string).

Record DataManager : Set := { data_location : string }.

Inductive open_mode : Set := mode_w | mode_a.

Section Storage.

Variable self : DataManager.

Definition _filename_for (ticker : string) : string :=
  data_location self +:+ Str.upper ticker +:+ ".csv".

Definition _has_file (disk : files) (filename : string) : bool :=
  bool_decide (is_Some (disk !! filename)).

Definition _has_file_for (disk : files) (ticker : string) : bool :=
  bool_decide (is_Some (disk !! _filename_for ticker)).

Definition _remove_file_for (disk : files) (ticker : string) : files :=
  delete (_filename_for ticker) disk.

Definition _readlines (disk : files) (filename : string) : list string :=
  if _has_file disk filename then
    Str.strip <$> TextFile.iter_lines (default "" (disk !! filename))
  else [].

Definition _readlines_for (disk : files) (ticker : string) : list string :=
  if _has_file_for disk ticker then
    Str.strip <$> TextFile.iter_lines (default "" (disk !! _filename_for ticker))
  else [].

(** [open(filename, mode)]: ['w'] truncates, ['a'] keeps the content,
    both create a missing file. *)
Definition open_for_writing (disk : files) (filename : string)
    (mode : open_mode) : string :=
  match mode with
  | mode_w => ""
  | mode_a => default "" (disk !! filename)
  end.

Definition _write_data_to_csv_file (disk : files) (filename : string)
    (data : list row) (mode : open_mode) : files :=
  let file := open_for_writing disk filename mode in
  let file := fold_left
    (fun file line => file +:+ (Str.join "," line +:+ TextFile.newline))
    data file in
  <[filename := file]> disk.

Definition _read_csv_file_rows_for (disk : files) (ticker : string)
    : list row :=
  let file_content := _readlines_for disk ticker in
  fold_left
    (fun data line => data ++ [Str.strip <$> Str.split "," line])
    file_content [].

Definition _read_csv_file_columns_for (disk : files) (ticker : string)
    : res (list (list string)) :=
  let file_content := _readlines_for disk ticker in
  let data := fold_left (fun data _ => data ++ [[]]) (seq 0 6) [] in
  foldl
    (fun acc line =>
       data ← acc;
       let values := Str.split "," line in
       foldl
         (fun acc i =>
            data ← acc;
            v ← py_index values i;
            col ← py_index data i;
            Ok (<[i := col ++ [Str.strip v]]> data))
         (Ok data) (seq 0 6))
    (Ok data) file_content.

Definition read_stock_data (disk : files) (ticker format : string)
    : res (list (list string)) :=
  if decide (format = "column") then _read_csv_file_columns_for disk ticker
  else if decide (format = "row") then Ok (_read_csv_file_rows_for disk ticker)
  else Ok [].

(** [next(i for i, _ in enumerate(data) if _[0] == last_date)], the
    enumeration being at index [i]. *)
Fixpoint next_index_of (last_date : string) (data : list row) (i : nat)
    : res nat :=
  match data with
  | [] => Raise StopIteration
  | r :: data' =>
      d ← py_index r 0;
      if decide (d = last_date) then Ok i
      else next_index_of last_date data' (S i)
  end.

(** The rows [write_stock_data] hands on to be written, with the
    mode; nothing is written before this has been computed. *)
Definition data_to_write (disk : files) (ticker : string)
    (data : list row) (append : bool) : res (list row * open_mode * files) :=
  if append then
    existing_data ← read_stock_data disk ticker "row";
    if decide (length existing_data = 0) then Ok (data, mode_a, disk)
    else
      existing_last ← py_last existing_data;
      existing_last_date ← py_index existing_last 0;
      data_last ← py_last data;
      data_last_date ← py_index data_last 0;
      if (existing_last_date <? data_last_date)%string then
        data_first ← py_index data 0;
        data_first_date ← py_index data_first 0;
        if (data_first_date <? existing_last_date)%string then
          index_of_last ← next_index_of existing_last_date data 0;
          Ok (drop (index_of_last + 1) data, mode_a, disk)
        else Ok ([], mode_a, disk)
      else Ok ([], mode_a, disk)
  else
    let disk := if _has_file_for disk ticker
                then _remove_file_for disk ticker else disk in
    Ok (data, mode_w, disk).

(** [write_stock_data]: the outcome and the files afterwards; an
    exception leaves the files as they were. *)
Definition write_stock_data (disk : files) (ticker : string)
    (data : list row) (append : bool) : res unit * files :=
  match data_to_write disk ticker data append with
  | Ok (rows, mode, disk') =>
      (Ok (), _write_data_to_csv_file disk' (_filename_for ticker) rows mode)
  | Raise e => (Raise e, disk)
  end.

End Storage.

(** ** Calendar dates: [datetime.datetime] at midnight *)

Module Datetime.

Local Open Scope Z_scope.

Record datetime : Set := { year : Z; month : Z; day : Z }.

Definition MINYEAR : Z := 1.
Definition MAXYEAR : Z := 9999.

Definition is_leap (y : Z) : bool :=
  (y mod 4 =? 0) && (negb (y mod 100 =? 0) || (y mod 400 =? 0)).

Definition days_in_month (y m : Z) : Z :=
  if m =? 2 then (if is_leap y then 29 else 28)
  else if (m =? 4) || (m =? 6) || (m =? 9) || (m =? 11) then 30
  else 31.

(** The dates the constructor of [datetime] accepts. *)
Definition valid (d : datetime) : bool :=
  (MINYEAR <=? year d) && (year d <=? MAXYEAR) &&
  (1 <=? month d) && (month d <=? 12) &&
  (1 <=? day d) && (day d <=? days_in_month (year d) (month d)).

Definition make (y m d : Z) : res datetime :=
  let dt := {| year := y; month := m; day := d |} in
  if valid dt then Ok dt else Raise ValueError.

(** [a < b] *)
Definition ltb (a b : datetime) : bool :=
  (year a <? year b) ||
  ((year a =? year b) &&
   ((month a <? month b) ||
    ((month a =? month b) && (day a <? day b)))).

(** [a + datetime.timedelta(1)] *)
Definition add_day (a : datetime) : res datetime :=
  if day a <? days_in_month (year a) (month a) then
    Ok {| year := year a; month := month a; day := day a + 1 |}
  else if month a <? 12 then
    Ok {| year := year a; month := month a + 1; day := 1 |}
  else if year a <? MAXYEAR then
    Ok {| year := year a + 1; month := 1; day := 1 |}
  else Raise OverflowError.

(** A bound on the number of days from [a] to [b]. *)
Definition rank (a : datetime) : Z := 372 * year a + 31 * month a + day a.
Definition span (a b : datetime) : nat := Z.to_nat (rank b - rank a).

Definition digit (c : ascii) : option Z :=
  let n := Z.of_N (N_of_ascii c) in
  if (48 <=? n) && (n <=? 57) then Some (n - 48) else None.

Definition digit_char (n : Z) : ascii := ascii_of_N (Z.to_N (48 + n)).

(** [%Y]: four digits. *)
Definition parse_year (s : string) : option Z :=
  match s with
  | String a (String b (String c (String d EmptyString))) =>
      a ← digit a; b ← digit b; c ← digit c; d ← digit d;
      Some (1000 * a + 100 * b + 10 * c + d)
  | _ => None
  end.

(** [%m]: [1[0-2]|0[1-9]|[1-9]]. *)
Definition parse_month (s : string) : option Z :=
  match s with
  | String a (String b EmptyString) =>
      a ← digit a; b ← digit b;
      if (a =? 1) && (b <=? 2) || (a =? 0) && (1 <=? b)
      then Some (10 * a + b) else None
  | String a EmptyString =>
      a ← digit a; if 1 <=? a then Some a else None
  | _ => None
  end.

(** [%d]: [3[0-1]|[1-2]\d|0[1-9]|[1-9]| [1-9]]. *)
Definition parse_day (s : string) : option Z :=
  match s with
  | String a (String b EmptyString) =>
      if decide (a = " "%char) then
        b ← digit b; if 1 <=? b then Some b else None
      else
        a ← digit a; b ← digit b;
        if (a =? 3) && (b <=? 1) || (1 <=? a) && (a <=? 2)
           || (a =? 0) && (1 <=? b)
        then Some (10 * a + b) else None
  | String a EmptyString =>
      a ← digit a; if 1 <=? a then Some a else None
  | _ => None
  end.

(** [datetime.datetime.strptime(s, '%Y-%m-%d')] *)
Definition strptime (s : string) : res datetime :=
  match Str.split "-" s with
  | [ys; ms; ds] =>
      match parse_year ys, parse_month ms, parse_day ds with
      | Some y, Some m, Some d => make y m d
      | _, _, _ => Raise ValueError
      end
  | _ => Raise ValueError
  end.

Definition pad2 (n : Z) : string :=
  String (digit_char (n / 10)) (String (digit_char (n mod 10)) EmptyString).

Definition pad4 (n : Z) : string :=
  String (digit_char (n / 1000))
    (String (digit_char (n / 100 mod 10)) (pad2 (n mod 100))).

(** [a.strftime('%Y-%m-%d')], the year written with four digits as
    the library documents it. *)
Definition strftime (a : datetime) : string :=
  pad4 (year a) +:+ "-" +:+ pad2 (month a) +:+ "-" +:+ pad2 (day a).

End Datetime.

(** ** Loops and local variables *)

(** [while cond: body], cut off after [fuel] turns: [None] is a loop
    that has not ended by then. *)
Fixpoint while_loop {S : Type} (fuel : nat) (cond : S → bool)
    (body : S → res S) (s : S) : option (res S) :=
  if cond s then
    match fuel with
    | 0 => None
    | S fuel' =>
        match body s with
        | Ok s' => while_loop fuel' cond body s'
        | Raise e => Some (Raise e)
        end
    end
  else Some (Ok s).

(** Reading a local variable that may not have been assigned yet. *)
Definition local {A} (x : option A) : res A :=
  match x with
  | Some v => Ok v
  | None => Raise UnboundLocalError
  end.

(** Tuple unpacking [(a, b) = l], [(a, b, c) = l], [(a, b, c, d) = l]. *)
Definition unpack2 {A} (l : list A) : res (A * A) :=
  match l with
  | [a; b] => Ok (a, b)
  | _ => Raise ValueError
  end.

Definition unpack3 {A} (l : list A) : res (A * A * A) :=
  match l with
  | [a; b; c] => Ok (a, b, c)
  | _ => Raise ValueError
  end.

Definition unpack4 {A} (l : list A) : res (A * A * A * A) :=
  match l with
  | [a; b; c; d] => Ok (a, b, c, d)
  | _ => Raise ValueError
  end.

(** ** Price look-up tables and strategies *)

Section Floats.

(** Python's floating-point numbers and the built-in [float(s)] on
    strings, which raises [ValueError] on text that is no number. *)
Variable pyfloat : Type.
Variable float : string → res pyfloat.

Variable self : DataManager.

(** The local variables [build_price_lut] assigns in its [for] loop
    and reads after it; [None] is a variable not assigned yet. *)
Record lut_locals : Type := {
  price_lookup : gmap string pyfloat;
  i : option nat;
  next_line_data : option (list string);
  next_date : option Datetime.datetime
}.

(** One turn of the [while] loop, on the running date and the table. *)
Definition fill_step (fill : bool) (curr_line_data : list string)
    (next_date : Datetime.datetime)
    (s : Datetime.datetime * gmap string pyfloat)
    : res (Datetime.datetime * gmap string pyfloat) :=
  let '(curr_date, price_lookup) := s in
  close ← py_index curr_line_data 4;
  price ← float close;
  let price_lookup := <[Datetime.strftime curr_date := price]> price_lookup in
  if fill then
    curr_date ← Datetime.add_day curr_date;
    Ok (curr_date, price_lookup)
  else Ok (next_date, price_lookup).

(** The body of the [for] loop at index [i]. *)
Definition lut_for_body (fill : bool) (file_content : list string)
    (i : nat) (vars : lut_locals) : option (res lut_locals) :=
  let header :=
    curr_line ← py_index file_content i;
    let curr_line_data := Str.split "," curr_line in
    next_line ← py_index file_content (i + 1);
    let next_line_data := Str.split "," next_line in
    curr_text ← py_index curr_line_data 0;
    curr_date ← Datetime.strptime curr_text;
    next_text ← py_index next_line_data 0;
    next_date ← Datetime.strptime next_text;
    Ok (curr_line_data, next_line_data, curr_date, next_date) in
  match header with
  | Raise e => Some (Raise e)
  | Ok (curr_line_data, next_line_data, curr_date, next_date) =>
      match while_loop (Datetime.span curr_date next_date)
              (λ s, Datetime.ltb s.1 next_date)
              (fill_step fill curr_line_data next_date)
              (curr_date, price_lookup vars) with
      | None => None
      | Some (Raise e) => Some (Raise e)
      | Some (Ok (_, price_lookup)) =>
          Some (Ok {| price_lookup := price_lookup;
                      i := Some i;
                      next_line_data := Some next_line_data;
                      next_date := Some next_date |})
      end
  end.

(** [for i in range(...)] over the indices [idx]. *)
Fixpoint lut_for (fill : bool) (file_content : list string)
    (idx : list nat) (vars : lut_locals) : option (res lut_locals) :=
  match idx with
  | [] => Some (Ok vars)
  | i :: idx' =>
      match lut_for_body fill file_content i vars with
      | Some (Ok vars') => lut_for fill file_content idx' vars'
      | r => r
      end
  end.

Definition build_price_lut (disk : files) (ticker : string) (fill : bool)
    : option (res (gmap string pyfloat)) :=
  let vars := {| price_lookup := ∅; i := None;
                 next_line_data := None; next_date := None |} in
  let file_content := _readlines_for self disk ticker in
  if decide (length file_content = 0) then Some (Ok (price_lookup vars))
  else if decide (length file_content = 1) then
    Some (i ← local (i vars);
          line ← py_index file_content i;
          let line_data := Str.split "," line in
          date ← py_index line_data 0;
          close ← py_index line_data 4;
          price ← float close;
          Ok {[ date := price ]})
  else
    match lut_for fill file_content
            (seq 0 (length file_content - 1)) vars with
    | None => None
    | Some (Raise e) => Some (Raise e)
    | Some (Ok vars) =>
        Some (next_date ← local (next_date vars);
              next_line_data ← local (next_line_data vars);
              close ← py_index next_line_data 4;
              price ← float close;
              Ok (<[Datetime.strftime next_date := price]>
                    (price_lookup vars)))
    end.

Record position : Type := {
  is_holding : bool;
  ratio : pyfloat;
  ticker : string;
  buy_signal : string;
  sell_signal : string
}.

Record strategy : Type := {
  assets : gset string;
  positions : list position
}.

Definition _parse_signal (signal_code : string)
    : res (gset string * gset string) :=
  if decide (signal_code ∈ ["ALWAYS"; "NEVER"]) then Ok (∅, ∅)
  else
    '(val_a_code, _, val_b_code) ← unpack3 (Str.split " " signal_code);
    foldl
      (λ acc code,
         '(tickers, indicators) ← acc;
         '(ticker, indicator) ← unpack2 (Str.split "~" code);
         let tickers := tickers ∪ {[Str.upper ticker]} in
         if decide (indicator ∈ ["PRICE"]) then Ok (tickers, indicators)
         else Ok (tickers, indicators ∪ {[Str.upper indicator]}))
      (Ok (∅, ∅)) [val_a_code; val_b_code].

Definition build_strategy (disk : files) (strategy_name strategy_dir : string)
    : res (strategy * gset string * gset string) :=
  let lines := _readlines disk (strategy_dir +:+ strategy_name) in
  foldl
    (λ acc line,
       '(strategy, stocks_needed, indicators_needed) ← acc;
       '(ratio, ticker, buy_signal, sell_signal) ←
         unpack4 (Str.split "," line);
       let assets := assets strategy ∪ {[Str.upper ticker]} in
       let stocks_needed := stocks_needed ∪ {[Str.upper ticker]} in
       '(stocks_needed, indicators_needed) ←
         foldl
           (λ acc signal,
              '(stocks_needed, indicators_needed) ← acc;
              '(tickers, indicators) ← _parse_signal signal;
              Ok (stocks_needed ∪ tickers, indicators_needed ∪ indicators))
           (Ok (stocks_needed, indicators_needed))
           [buy_signal; sell_signal];
       ratio ← float ratio;
       Ok ({| assets := assets;
              positions := positions strategy ++
                [{| is_holding := false;
                    ratio := ratio;
                    ticker := Str.upper ticker;
                    buy_signal := buy_signal;
                    sell_signal := sell_signal |}] |},
           stocks_needed, indicators_needed))
    (Ok ({| assets := ∅; positions := [] |}, ∅, ∅)) lines.

End Floats.

(** ** A float on plain decimal literals

    The theorems below hold for every [float]; this one, exact on the
    literals [digits] and [digits.digits], serves to run the functions
    on concrete files. *)

Module Decimal.

(** [mantissa / 10 ^ scale] *)
Record decimal : Set := { mantissa : Z; scale : nat }.

Fixpoint digits (acc : Z) (s : string) : option Z :=
  match s with
  | EmptyString => Some acc
  | String c s' =>
      d ← Datetime.digit c; digits (10 * acc + d)%Z s'
  end.

Definition float (s : string) : res decimal :=
  match Str.split "." (Str.strip s) with
  | [int_part] =>
      if decide (int_part = "") then Raise ValueError
      else match digits 0 int_part with
           | Some m => Ok {| mantissa := m; scale := 0 |}
           | None => Raise ValueError
           end
  | [int_part; frac_part] =>
      if decide (int_part +:+ frac_part = "") then Raise ValueError
      else match digits 0 (int_part +:+ frac_part) with
           | Some m => Ok {| mantissa := m; scale := String.length frac_part |}
           | None => Raise ValueError
           end
  | _ => Raise ValueError
  end.

End Decimal.

Arguments price_lookup {pyfloat} _.
Arguments next_line_data {pyfloat} _.
Arguments next_date {pyfloat} _.
Arguments is_holding {pyfloat} _.
Arguments ratio {pyfloat} _.
Arguments ticker {pyfloat} _.
Arguments buy_signal {pyfloat} _.
Arguments sell_signal {pyfloat} _.
Arguments assets {pyfloat} _.
Arguments positions {pyfloat} _.
Arguments build_price_lut {pyfloat} float self disk ticker fill.
Arguments build_strategy {pyfloat} float disk strategy_name strategy_dir.

(** ** Notions the properties are stated with *)

(** The date of a row, when it has one. *)
Definition date_of (r : row) : option string := r !! 0.

Definition first_date (data : list row) : option string :=
  data !! 0 ≫= date_of.

Definition last_date (data : list row) : option string :=
  last data ≫= date_of.

(** The text of rows in a CSV file: a line per row. *)
Fixpoint csv_text (data : list row) : string :=
  match data with
  | [] => ""
  | r :: data' => (Str.join "," r +:+ TextFile.newline) +:+ csv_text data'
  end.

(** [r] is dated after [d]. *)
Definition dated_after (d : string) (r : row) : bool :=
  match r with
  | d' :: _ => (d <? d')%string
  | [] => false
  end.

(** The dates of the rows ascend strictly. *)
Definition dates_ascending (data : list row) : Prop :=
  ∀ j k r r', j < k → data !! j = Some r → data !! k = Some r' →
    ∃ d d', date_of r = Some d ∧ date_of r' = Some d' ∧ (d <? d')%string = true.

(** A data directory with one series and one strategy, to run the
    functions on. *)
Definition sample_manager : DataManager := {| data_location := "data/" |}.

Definition sample_disk : files :=
  {[ "data/ACME.csv" :=
       "2024-01-01,1,2,0,1,100" +:+ TextFile.newline +:+
       "2024-01-02,1,3,1,2,150" +:+ TextFile.newline;
     "strategies/basic" := "0.5,AAPL,ALWAYS,CLOSE~PRICE < AAPL~SMA20" ]}.

Definition sample_incoming : list row :=
  [ ["2024-01-01"; "1"; "2"; "0"; "1"; "100"];
    ["2024-01-02"; "1"; "3"; "1"; "2"; "150"];
    ["2024-01-03"; "2"; "4"; "2"; "3"; "120"] ].

(** Incoming rows that all come after the last date on disk. *)
Definition sample_later : list row :=
  [ ["2024-02-01"; "2"; "4"; "2"; "3"; "120"];
    ["2024-02-02"; "3"; "4"; "2"; "4"; "90"] ].

(** Incoming rows around the last date on disk, none of them at it. *)
Definition sample_gap : list row :=
  [ ["2024-01-01"; "1"; "2"; "0"; "1"; "100"];
    ["2024-01-03"; "2"; "4"; "2"; "3"; "120"] ].

(** A field that round-trips through a CSV file: no comma, no line
    end (line feed or carriage return) and no white space around it. *)
Definition clean_field (f : string) : Prop :=
  Str.contains "," f = false
  ∧ Str.contains TextFile.LF f = false
  ∧ Str.contains TextFile.CR f = false
  ∧ Str.strip f = f.

Arguments fill_step {pyfloat} float fill curr_line_data next_date s.
Arguments lut_for_body {pyfloat} float fill file_content i vars.
Arguments lut_for {pyfloat} float fill file_content idx vars.

Section SeriesNotions.

Variable pyfloat : Type.
Variable float : string → res pyfloat.

(** [line] holds a row dated [d] whose closing price reads as [v]. *)
Definition row_of_line (line : string) (d : Datetime.datetime) (v : pyfloat)
    : Prop :=
  ∃ date_text close_text : string,
    Str.split "," line !! 0 = Some date_text
    ∧ Datetime.strptime date_text = Ok d
    ∧ Str.split "," line !! 4 = Some close_text
    ∧ float close_text = Ok v.

(** The dates and closing prices of the rows that the lines hold. *)
Definition series_of_lines (lines : list string)
    (entries : list (Datetime.datetime * pyfloat)) : Prop :=
  Forall2 (λ line e, row_of_line line e.1 e.2) lines entries.

(** Each date is before the next one. *)
Definition dates_strictly_ascending
    (entries : list (Datetime.datetime * pyfloat)) : Prop :=
  ∀ (i : nat) d v d' v',
    entries !! i = Some (d, v) → entries !! S i = Some (d', v') →
    Datetime.ltb d d' = true.

(** What the [while] loop between the rows dated [d] and [d'] does to
    the table: with [fill], every date from [d] up to the day before
    [d'] gets the price [v]; without, the date [d] alone. *)
Definition lut_step (fill : bool) (d d' : Datetime.datetime) (v : pyfloat)
    (lut lut' : gmap string pyfloat) : Prop :=
  if fill then
    (∀ c, Datetime.valid c = true →
       (Datetime.rank d ≤ Datetime.rank c < Datetime.rank d')%Z →
       lut' !! Datetime.strftime c = Some v)
    ∧ (∀ k : string,
         lut' !! k = lut !! k
         ∨ ∃ c, Datetime.valid c = true
             ∧ (Datetime.rank d ≤ Datetime.rank c < Datetime.rank d')%Z
             ∧ k = Datetime.strftime c)
  else lut' = <[Datetime.strftime d := v]> lut.

End SeriesNotions.

Arguments row_of_line {pyfloat} float line d v.
Arguments series_of_lines {pyfloat} float lines entries.
Arguments dates_strictly_ascending {pyfloat} entries.
Arguments lut_step {pyfloat} fill d d' v lut lut'.

(** A series of one row. *)
Definition single_row_disk : files :=
  {[ "data/ACME.csv" := "2024-03-01,40,43,39,42,1000" +:+ TextFile.newline ]}.

(** A series of two rows, a Friday and the Monday after it. *)
Definition weekend_disk : files :=
  {[ "data/ACME.csv" :=
       "2024-01-05,9,11,8,10,500" +:+ TextFile.newline +:+
       "2024-01-08,19,21,18,20,700" +:+ TextFile.newline ]}.

(** The dates and closing prices of [weekend_disk], the prices read by
    [Decimal.float]. *)
Definition weekend_entries : list (Datetime.datetime * Decimal.decimal) :=
  [ ({| Datetime.year := 2024; Datetime.month := 1; Datetime.day := 5 |},
     {| Decimal.mantissa := 10; Decimal.scale := 0 |});
    ({| Datetime.year := 2024; Datetime.month := 1; Datetime.day := 8 |},
     {| Decimal.mantissa := 20; Decimal.scale := 0 |}) ].

(** The six columns of rows of six fields or more: column [j] holds
    the [j]-th field of every row. *)
Definition columns_of (rows : list row) : list (list string) :=
  (λ j, (λ r, default "" (r !! j)) <$> rows) <$> seq 0 6.

(** ** The loop of [build_strategy] *)

Section StrategyLoop.

Variable pyfloat : Type.
Variable float : string → res pyfloat.

(** The body of the [for] loop of [build_strategy], on the strategy
    and the two sets built so far. *)
Definition strategy_step
    (acc : res (strategy pyfloat * gset string * gset string)) (line : string)
    : res (strategy pyfloat * gset string * gset string) :=
  '(strategy, stocks_needed, indicators_needed) ← acc;
  '(ratio, ticker, buy_signal, sell_signal) ← unpack4 (Str.split "," line);
  let assets := assets strategy ∪ {[Str.upper ticker]} in
  let stocks_needed := stocks_needed ∪ {[Str.upper ticker]} in
  '(stocks_needed, indicators_needed) ←
    foldl
      (λ acc signal,
         '(stocks_needed, indicators_needed) ← acc;
         '(tickers, indicators) ← _parse_signal signal;
         Ok (stocks_needed ∪ tickers, indicators_needed ∪ indicators))
      (Ok (stocks_needed, indicators_needed))
      [buy_signal; sell_signal];
  ratio ← float ratio;
  Ok ({| assets := assets;
         positions := positions strategy ++
           [{| is_holding := false;
               ratio := ratio;
               ticker := Str.upper ticker;
               buy_signal := buy_signal;
               sell_signal := sell_signal |}] |},
      stocks_needed, indicators_needed).

(** A position and the line of the strategy file it was read from. *)
Definition position_of_line (p : position pyfloat) (line : string) : Prop :=
  ∃ r t b s : string,
    Str.split "," line = [r; t; b; s]
    ∧ float r = Ok (ratio p)
    ∧ ticker p = Str.upper t
    ∧ buy_signal p = b
    ∧ sell_signal p = s
    ∧ is_holding p = false
    ∧ is_ok (_parse_signal b) = true
    ∧ is_ok (_parse_signal s) = true.

(** A line of a strategy file that [build_strategy] accepts: four
    fields, a ratio that is a number and two signals that parse. *)
Definition strategy_line_ok (line : string) : Prop :=
  ∃ r t b s : string,
    Str.split "," line = [r; t; b; s]
    ∧ is_ok (float r) = true
    ∧ is_ok (_parse_signal b) = true
    ∧ is_ok (_parse_signal s) = true.

(** [x] is among the instruments, or the indicators, of a signal of
    the position [p]. *)
Definition signal_ticker (p : position pyfloat) (x : string) : Prop :=
  ∃ signal tickers indicators,
    (signal = buy_signal p ∨ signal = sell_signal p)
    ∧ _parse_signal signal = Ok (tickers, indicators)
    ∧ x ∈ tickers.

Definition signal_indicator (p : position pyfloat) (x : string) : Prop :=
  ∃ signal tickers indicators,
    (signal = buy_signal p ∨ signal = sell_signal p)
    ∧ _parse_signal signal = Ok (tickers, indicators)
    ∧ x ∈ indicators.

End StrategyLoop.

Arguments strategy_step {pyfloat} float acc line.
Arguments position_of_line {pyfloat} float p line.
Arguments strategy_line_ok {pyfloat} float line.
Arguments signal_ticker {pyfloat} p x.
Arguments signal_indicator {pyfloat} p x.

(** * Properties *)

(** ** The error monad *)

Lemma bind_Ok {A B} (f : A → res B) (a : A) : Ok a ≫= f = f a.
Proof. reflexivity. Qed.

Lemma bind_Raise {A B} (f : A → res B) (e : exn) : Raise e ≫= f = Raise e.
Proof. reflexivity. Qed.

Lemma py_index_Some {A} (l : list A) (n : nat) (x : A) :
  l !! n = Some x → py_index l n = Ok x.
Proof. unfold py_index. intros ->. reflexivity. Qed.

Lemma py_index_None {A} (l : list A) (n : nat) :
  l !! n = None → py_index l n = Raise IndexError.
Proof. unfold py_index. intros ->. reflexivity. Qed.

Lemma py_last_Some {A} (l : list A) (x : A) :
  last l = Some x → py_last l = Ok x.
Proof. unfold py_last. intros ->. reflexivity. Qed.

(** ** Strategy files *)

Section SignalFacts.

Example parse_signal_always : _parse_signal "ALWAYS" = Ok (∅, ∅).
Proof. reflexivity. Qed.

Example parse_signal_never : _parse_signal "NEVER" = Ok (∅, ∅).
Proof. reflexivity. Qed.

Example parse_signal_close_sma :
  _parse_signal "CLOSE~PRICE < AAPL~SMA20"
  = Ok ({[ "CLOSE"; "AAPL" ]}, {[ "SMA20" ]}).
Proof. vm_compute. reflexivity. Qed.

(** Past the two literals, the parser unpacks the split signal. *)
Lemma parse_signal_unfold (signal_code : string) :
  signal_code ∉ ["ALWAYS"; "NEVER"] →
  _parse_signal signal_code
  = ('(val_a_code, _, val_b_code) ← unpack3 (Str.split " " signal_code);
     foldl
       (λ acc code,
          '(tickers, indicators) ← acc;
          '(ticker, indicator) ← unpack2 (Str.split "~" code);
          let tickers := tickers ∪ {[Str.upper ticker]} in
          if decide (indicator ∈ ["PRICE"]) then Ok (tickers, indicators)
          else Ok (tickers, indicators ∪ {[Str.upper indicator]}))
       (Ok (∅, ∅)) [val_a_code; val_b_code]).
Proof.
  intros Hn. unfold _parse_signal. destruct (decide _); [contradiction | reflexivity].
Qed.

Lemma unpack3_length {A} (l : list A) :
  length l ≠ 3 → unpack3 l = Raise ValueError.
Proof. destruct l as [|a [|b [|c [|d l]]]]; simpl; intros H; congruence. Qed.

Lemma unpack2_length {A} (l : list A) :
  length l ≠ 2 → unpack2 l = Raise ValueError.
Proof. destruct l as [|a [|b [|c l]]]; simpl; intros H; congruence. Qed.

Lemma three_tokens_not_literal (s a op b : string) :
  Str.split " " s = [a; op; b] → s ∉ ["ALWAYS"; "NEVER"].
Proof.
  intros Hs Hin. apply list_elem_of_In in Hin. simpl in Hin.
  destruct Hin as [<- | [<- | []]]; vm_compute in Hs; discriminate.
Qed.

End SignalFacts.

(** C6: the strategy of the single line
    [0.5,AAPL,ALWAYS,CLOSE~PRICE < AAPL~SMA20] has one position with
    ratio [float("0.5")], ticker AAPL, the two signal texts as written
    and [is_holding] false; the instruments are AAPL and CLOSE, the
    indicators are SMA20 alone, so PRICE is not among them. *)
Theorem C6_build_strategy_single_line
    (pyfloat : Type) (float : string → res pyfloat) (disk : files)
    (strategy_name strategy_dir : string) (half : pyfloat) :
  _readlines disk (strategy_dir +:+ strategy_name)
    = ["0.5,AAPL,ALWAYS,CLOSE~PRICE < AAPL~SMA20"] →
  float "0.5" = Ok half →
  ∃ stocks_needed indicators_needed,
    build_strategy float disk strategy_name strategy_dir
    = Ok ({| assets := {[ "AAPL" ]};
             positions :=
               [ {| is_holding := false; ratio := half; ticker := "AAPL";
                    buy_signal := "ALWAYS";
                    sell_signal := "CLOSE~PRICE < AAPL~SMA20" |} ] |},
          stocks_needed, indicators_needed)
    ∧ stocks_needed = {[ "AAPL"; "CLOSE" ]}
    ∧ indicators_needed = {[ "SMA20" ]}
    ∧ "AAPL" ∈ stocks_needed ∧ "CLOSE" ∈ stocks_needed
    ∧ "SMA20" ∈ indicators_needed ∧ "PRICE" ∉ indicators_needed.
Proof.
  intros Hlines Hfloat.
  exists {[ "AAPL"; "CLOSE" ]}, {[ "SMA20" ]}.
  split; [| set_solver].
  unfold build_strategy. rewrite Hlines. cbn [foldl].
  change (Str.split "," "0.5,AAPL,ALWAYS,CLOSE~PRICE < AAPL~SMA20")
    with ["0.5"; "AAPL"; "ALWAYS"; "CLOSE~PRICE < AAPL~SMA20"].
  cbn [mbind res_bind unpack4 foldl].
  rewrite parse_signal_always, parse_signal_close_sma.
  cbn [mbind res_bind]. rewrite Hfloat. cbn [mbind res_bind assets positions].
  change (Str.upper "AAPL") with "AAPL".
  reflexivity.
Qed.

Ltac not_in_literals :=
  let H := fresh in
  intros H; apply list_elem_of_In in H; simpl in H;
  repeat (destruct H as [H | H]; [discriminate H |]); exact H.

(** C7, as the code has it: a signal other than ALWAYS and NEVER that
    does not split on single spaces into exactly three tokens, or one of
    whose two terms does not split on [~] into exactly two parts,
    raises [ValueError]; nothing is returned. *)
Theorem C7_parse_signal_malformed (signal_code : string) :
  signal_code ∉ ["ALWAYS"; "NEVER"] →
  (length (Str.split " " signal_code) ≠ 3
   ∨ ∃ a op b, Str.split " " signal_code = [a; op; b]
       ∧ (length (Str.split "~" a) ≠ 2 ∨ length (Str.split "~" b) ≠ 2)) →
  _parse_signal signal_code = Raise ValueError.
Proof.
  intros Hlit Hbad. rewrite parse_signal_unfold by exact Hlit.
  destruct Hbad as [Hlen | (a & op & b & Hsplit & Hterm)].
  - rewrite unpack3_length by exact Hlen. reflexivity.
  - rewrite Hsplit. cbn [unpack3 mbind res_bind foldl].
    destruct (decide (length (Str.split "~" a) = 2)) as [Ha | Ha].
    + destruct Hterm as [Hterm | Hb]; [contradiction |].
      destruct (Str.split "~" a) as [|ta [|ia [|x l]]]; try discriminate Ha.
      cbn [unpack2 mbind res_bind].
      rewrite (unpack2_length _ Hb).
      destruct (decide (ia ∈ ["PRICE"])); reflexivity.
    + rewrite (unpack2_length _ Ha). reflexivity.
Qed.

Lemma C7_parse_signal_malformed_witness :
  ("A~B < C~D E~F" ∉ ["ALWAYS"; "NEVER"])
  ∧ length (Str.split " " "A~B < C~D E~F") ≠ 3
  ∧ _parse_signal "A~B < C~D E~F" = Raise ValueError.
Proof.
  split; [not_in_literals |]. split; [vm_compute; discriminate |].
  apply (C7_parse_signal_malformed "A~B < C~D E~F").
  - not_in_literals.
  - left. vm_compute. discriminate.
Defined.

(** C7, counterexample: the signal [A~B C~D E~F] splits on spaces into
    three tokens, not four, and is parsed: no error is raised. *)
Lemma C7_three_space_tokens_parse :
  Str.split " " "A~B C~D E~F" = ["A~B"; "C~D"; "E~F"]
  ∧ _parse_signal "A~B C~D E~F" = Ok ({[ "A"; "E" ]}, {[ "B"; "F" ]})
  ∧ ∀ e, _parse_signal "A~B C~D E~F" ≠ Raise e.
Proof.
  split; [reflexivity |].
  assert (H : _parse_signal "A~B C~D E~F" = Ok ({[ "A"; "E" ]}, {[ "B"; "F" ]}))
    by (vm_compute; reflexivity).
  split; [exact H |]. intros e He. rewrite H in He. discriminate He.
Qed.

(** C9: the test that keeps PRICE out of the indicators compares the
    text as written: a term whose indicator is another spelling of
    PRICE, such as [price], is not excluded; it is upper-cased, and
    PRICE is in the indicator set returned. *)
Theorem C9_price_exclusion_is_case_sensitive
    (signal_code a op b ta ia tb ib : string) :
  Str.split " " signal_code = [a; op; b] →
  Str.split "~" a = [ta; ia] →
  Str.split "~" b = [tb; ib] →
  (ia ≠ "PRICE" ∧ Str.upper ia = "PRICE")
  ∨ (ib ≠ "PRICE" ∧ Str.upper ib = "PRICE") →
  ∃ tickers indicators,
    _parse_signal signal_code = Ok (tickers, indicators)
    ∧ "PRICE" ∈ indicators.
Proof.
  intros Hs Ha Hb Hprice.
  rewrite parse_signal_unfold by (eapply three_tokens_not_literal; exact Hs).
  rewrite Hs. cbn [unpack3 mbind res_bind foldl]. rewrite Ha.
  cbn [unpack2 mbind res_bind]. 
  destruct (decide (ia ∈ ["PRICE"])) as [Hia | Hia];
    cbn [mbind res_bind]; rewrite Hb; cbn [unpack2 mbind res_bind];
    destruct (decide (ib ∈ ["PRICE"])) as [Hib | Hib];
    eexists _, _; (split; [reflexivity |]).
  - apply list_elem_of_singleton in Hia, Hib. 
    destruct Hprice as [[Hne _] | [Hne _]]; contradiction.
  - destruct Hprice as [[Hne _] | [_ Hup]].
    + apply list_elem_of_singleton in Hia. contradiction.
    + rewrite Hup. set_solver.
  - destruct Hprice as [[_ Hup] | [Hne _]].
    + rewrite Hup. set_solver.
    + apply list_elem_of_singleton in Hib. contradiction.
  - destruct Hprice as [[_ Hup] | [_ Hup]]; rewrite Hup; set_solver.
Qed.

Lemma C9_price_exclusion_is_case_sensitive_witness :
  Str.split " " "AAPL~price < AAPL~SMA20" = ["AAPL~price"; "<"; "AAPL~SMA20"]
  ∧ "price" ≠ "PRICE" ∧ Str.upper "price" = "PRICE"
  ∧ ∃ tickers indicators,
      _parse_signal "AAPL~price < AAPL~SMA20" = Ok (tickers, indicators)
      ∧ "PRICE" ∈ indicators.
Proof.
  split; [reflexivity |]. split; [discriminate |]. split; [reflexivity |].
  apply (C9_price_exclusion_is_case_sensitive
           "AAPL~price < AAPL~SMA20" "AAPL~price" "<" "AAPL~SMA20"
           "AAPL" "price" "AAPL" "SMA20"); try reflexivity.
  left. split; [discriminate | reflexivity].
Defined.

Lemma C6_build_strategy_single_line_witness :
  ∃ stocks_needed indicators_needed,
    build_strategy Decimal.float sample_disk "basic" "strategies/"
    = Ok ({| assets := {[ "AAPL" ]};
             positions :=
               [ {| is_holding := false;
                    ratio := {| Decimal.mantissa := 5; Decimal.scale := 1 |};
                    ticker := "AAPL";
                    buy_signal := "ALWAYS";
                    sell_signal := "CLOSE~PRICE < AAPL~SMA20" |} ] |},
          stocks_needed, indicators_needed)
    ∧ stocks_needed = {[ "AAPL"; "CLOSE" ]}
    ∧ indicators_needed = {[ "SMA20" ]}
    ∧ "AAPL" ∈ stocks_needed ∧ "CLOSE" ∈ stocks_needed
    ∧ "SMA20" ∈ indicators_needed ∧ "PRICE" ∉ indicators_needed.
Proof.
  apply (C6_build_strategy_single_line Decimal.decimal Decimal.float
           sample_disk "basic" "strategies/").
  - vm_compute. reflexivity.
  - vm_compute. reflexivity.
Defined.

(** ** Strings *)

Lemma str_app_cons (c : ascii) (s t : string) :
  String c s +:+ t = String c (s +:+ t).
Proof. reflexivity. Qed.

Lemma str_app_nil_l (s : string) : "" +:+ s = s.
Proof. reflexivity. Qed.

Lemma str_app_nil_r (s : string) : s +:+ "" = s.
Proof.
  induction s as [|c s IH]; [reflexivity |].
  rewrite str_app_cons. f_equal. exact IH.
Qed.

Lemma str_app_assoc (s t u : string) : (s +:+ t) +:+ u = s +:+ (t +:+ u).
Proof.
  induction s as [|c s IH]; [reflexivity |].
  rewrite !str_app_cons. f_equal. exact IH.
Qed.

Lemma split_nonempty (sep : ascii) (s : string) : Str.split sep s ≠ [].
Proof.
  destruct s as [|c s]; simpl; [discriminate |].
  destruct (decide (c = sep)); [discriminate |].
  destruct (Str.split sep s); discriminate.
Qed.

Lemma split_head (sep : ascii) (s : string) :
  ∃ f fs, Str.split sep s = f :: fs.
Proof.
  pose proof (split_nonempty sep s) as H.
  destruct (Str.split sep s) as [|f fs]; [contradiction | eauto].
Qed.

(** ** Reading and writing series *)

Section StorageFacts.

Variable self : DataManager.

Lemma fold_append_fmap {A B} (f : A → B) (l : list A) (acc : list B) :
  fold_left (λ data x, data ++ [f x]) l acc = acc ++ (f <$> l).
Proof.
  revert acc. induction l as [|x l IH]; intros acc; simpl.
  - by rewrite app_nil_r.
  - rewrite IH, <- app_assoc. reflexivity.
Qed.

(** The rows read are the lines of the file, split and trimmed. *)
Lemma read_rows_fmap (disk : files) (ticker : string) :
  _read_csv_file_rows_for self disk ticker
  = (λ line, Str.strip <$> Str.split "," line) <$> _readlines_for self disk ticker.
Proof.
  unfold _read_csv_file_rows_for.
  rewrite (fold_append_fmap (λ line, Str.strip <$> Str.split "," line)).
  reflexivity.
Qed.

Lemma read_row_format (disk : files) (ticker : string) :
  read_stock_data self disk ticker "row"
  = Ok (_read_csv_file_rows_for self disk ticker).
Proof. reflexivity. Qed.

(** Every row read has a first field. *)
Lemma read_rows_dated (disk : files) (ticker : string) (r : row) :
  r ∈ _read_csv_file_rows_for self disk ticker → is_Some (date_of r).
Proof.
  rewrite read_rows_fmap. intros (line & -> & _)%list_elem_of_fmap.
  destruct (split_head "," line) as (f & fs & ->). simpl. eauto.
Qed.

Lemma read_rows_last_date (disk : files) (ticker : string) :
  _read_csv_file_rows_for self disk ticker ≠ [] →
  is_Some (last_date (_read_csv_file_rows_for self disk ticker)).
Proof.
  intros Hne. apply last_is_Some in Hne as [r Hr].
  unfold last_date. rewrite Hr. simpl.
  eapply read_rows_dated, last_Some_elem_of, Hr.
Qed.

(** A series that has rows has a file. *)
Lemma read_rows_file (disk : files) (ticker : string) :
  _read_csv_file_rows_for self disk ticker ≠ [] →
  is_Some (disk !! _filename_for self ticker).
Proof.
  rewrite read_rows_fmap. unfold _readlines_for, _has_file_for.
  case_bool_decide; [done |]. simpl. congruence.
Qed.

(** The loop of [_write_data_to_csv_file] adds the text of the rows. *)
Lemma write_loop_csv_text (data : list row) (file : string) :
  fold_left
    (λ file line, file +:+ (Str.join "," line +:+ TextFile.newline))
    data file
  = file +:+ csv_text data.
Proof.
  revert file. induction data as [|r data IH]; intros file; simpl.
  - by rewrite str_app_nil_r.
  - rewrite IH, str_app_assoc. reflexivity.
Qed.

Lemma write_csv_append (disk : files) (filename : string) (data : list row) :
  _write_data_to_csv_file disk filename data mode_a
  = <[filename := default "" (disk !! filename) +:+ csv_text data]> disk.
Proof.
  unfold _write_data_to_csv_file. simpl. by rewrite write_loop_csv_text.
Qed.

Lemma write_csv_truncate (disk : files) (filename : string) (data : list row) :
  _write_data_to_csv_file disk filename data mode_w
  = <[filename := csv_text data]> disk.
Proof.
  unfold _write_data_to_csv_file. simpl. by rewrite write_loop_csv_text.
Qed.

(** Appending no row to a file that is there changes nothing. *)
Lemma write_csv_append_nothing (disk : files) (filename : string) :
  is_Some (disk !! filename) →
  _write_data_to_csv_file disk filename [] mode_a = disk.
Proof.
  intros [content Hc]. rewrite write_csv_append, Hc. simpl.
  rewrite str_app_nil_r. by apply insert_id.
Qed.

(** With rows on disk, whose last date is [L], an appending write
    compares [L] with the last and the first incoming date. *)
Lemma data_to_write_append (disk : files) (ticker : string)
    (data : list row) (L : string) :
  last_date (_read_csv_file_rows_for self disk ticker) = Some L →
  data_to_write self disk ticker data true
  = (data_last ← py_last data;
     data_last_date ← py_index data_last 0;
     if (L <? data_last_date)%string then
       data_first ← py_index data 0;
       data_first_date ← py_index data_first 0;
       if (data_first_date <? L)%string then
         index_of_last ← next_index_of L data 0;
         Ok (drop (index_of_last + 1) data, mode_a, disk)
       else Ok ([], mode_a, disk)
     else Ok ([], mode_a, disk)).
Proof.
  intros HL. unfold data_to_write. rewrite read_row_format. cbn [mbind res_bind].
  unfold last_date in HL.
  destruct (last (_read_csv_file_rows_for self disk ticker)) as [r|] eqn:Hlast;
    [| discriminate HL].
  simpl in HL.
  destruct (decide _) as [Hlen | Hlen].
  { apply length_zero_iff_nil in Hlen. rewrite Hlen in Hlast. discriminate. }
  rewrite (py_last_Some _ _ Hlast). cbn [mbind res_bind].
  rewrite (py_index_Some _ _ _ HL). reflexivity.
Qed.

Lemma last_date_Some (data : list row) (d : string) :
  last_date data = Some d →
  ∃ r, py_last data = Ok r ∧ py_index r 0 = Ok d.
Proof.
  unfold last_date. destruct (last data) as [r|] eqn:Hl; [| discriminate].
  simpl. intros Hd. exists r. split.
  - by apply py_last_Some.
  - by apply py_index_Some.
Qed.

Lemma first_date_Some (data : list row) (d : string) :
  first_date data = Some d →
  ∃ r, py_index data 0 = Ok r ∧ py_index r 0 = Ok d.
Proof.
  unfold first_date. destruct (data !! 0) as [r|] eqn:Hl; [| discriminate].
  simpl. intros Hd. exists r. split; by apply py_index_Some.
Qed.

End StorageFacts.

(** ** The order on strings *)

Lemma str_ltb_irrefl (s : string) : (s <? s)%string = false.
Proof.
  unfold String.ltb. pose proof (String.compare_antisym s s) as H.
  destruct (String.compare s s); try reflexivity. discriminate H.
Qed.

Lemma str_ltb_asym (s t : string) :
  (s <? t)%string = true → (t <? s)%string = false.
Proof.
  unfold String.ltb. rewrite (String.compare_antisym t s).
  destruct (String.compare s t); simpl; congruence.
Qed.

(** ** Searching the incoming rows for the last date on disk *)

Lemma next_index_of_found (L : string) (data : list row) (k n : nat) :
  next_index_of L data k = Ok n →
  ∃ i r, n = k + i ∧ data !! i = Some r ∧ date_of r = Some L
    ∧ ∀ j r', j < i → data !! j = Some r' → date_of r' ≠ Some L.
Proof.
  revert k. induction data as [|r data IH]; intros k; simpl; [discriminate |].
  unfold py_index. fold (date_of r). destruct (date_of r) as [d|] eqn:Hd;
    cbn [mbind res_bind]; [| discriminate].
  destruct (decide (d = L)) as [-> | Hne].
  - intros [= <-]. exists 0, r. repeat split; [lia | done |]. intros j r' Hj. lia.
  - intros (i & r0 & -> & Hi & Hr0 & Hbefore)%IH.
    exists (S i), r0. repeat split; [lia | done | done |].
    intros [|j] r' Hj Hr'; simpl in Hr'.
    + injection Hr' as <-. rewrite Hd. congruence.
    + eapply Hbefore; [| exact Hr']. lia.
Qed.

Lemma next_index_of_exists (L : string) (data : list row) (k : nat) :
  Forall (λ r, is_Some (date_of r)) data →
  (∃ r, r ∈ data ∧ date_of r = Some L) →
  ∃ n, next_index_of L data k = Ok n.
Proof.
  intros Hdated. revert k. induction Hdated as [|r data [d Hd] _ IH];
    intros k (r0 & Hin & Hr0).
  - by apply elem_of_nil in Hin.
  - simpl. unfold py_index. fold (date_of r). rewrite Hd. cbn [mbind res_bind].
    destruct (decide (d = L)) as [-> | Hne]; [eauto |].
    apply IH. exists r0. split; [| done].
    apply elem_of_cons in Hin as [-> | Hin]; [congruence | done].
Qed.

Lemma next_index_of_missing (L : string) (data : list row) (k : nat) :
  (∀ r, r ∈ data → date_of r ≠ Some L) →
  ∃ e, next_index_of L data k = Raise e
    ∧ (Forall (λ r, is_Some (date_of r)) data → e = StopIteration).
Proof.
  revert k. induction data as [|r data IH]; intros k Hmiss; simpl.
  - eauto.
  - unfold py_index. fold (date_of r). destruct (date_of r) as [d|] eqn:Hd;
      cbn [mbind res_bind].
    + destruct (decide (d = L)) as [-> | Hne].
      { exfalso. apply (Hmiss r); [apply list_elem_of_here | done]. }
      destruct (IH (S k)) as (e & He & Hstop).
      { intros r' Hr'. apply Hmiss. by apply list_elem_of_further. }
      exists e. split; [done |]. intros Hall. apply Hstop.
      by apply Forall_cons_1 in Hall as [_ ?].
    + exists IndexError. split; [done |].
      intros [[d' Hd'] _]%Forall_cons_1. congruence.
Qed.

(** Where a test fails up to an index and at it, and holds after it,
    filtering keeps what comes after the index. *)
Lemma filter_after_index {A} (P : A → bool) (l : list A) (i : nat) :
  (∀ (j : nat) y, (j ≤ i)%nat → l !! j = Some y → P y = false) →
  (∀ (j : nat) y, (i < j)%nat → l !! j = Some y → P y = true) →
  List.filter P l = drop (S i) l.
Proof.
  revert i. induction l as [|x l IH]; intros i Hlow Hhigh; [reflexivity |].
  simpl. rewrite (Hlow 0 x) by (done || lia).
  destruct i as [|i].
  - rewrite drop_0. clear IH Hlow.
    induction l as [|y l IH]; [reflexivity |]. simpl.
    rewrite (Hhigh 1 y) by (done || lia). f_equal. apply IH.
    intros [|[|j]] z Hj Hz; try lia.
    + simpl in Hz. apply (Hhigh 2 z); [lia | done].
    + apply (Hhigh (S (S (S j))) z); [lia | done].
  - apply IH.
    + intros j y Hj Hy. apply (Hlow (S j) y); [lia | done].
    + intros j y Hj Hy. apply (Hhigh (S j) y); [lia | done].
Qed.

(** ** Appending to a series *)

(** What an appending write does with the rows it has selected. *)
Lemma write_stock_data_selected (self : DataManager) (disk disk' : files)
    (ticker : string) (data rows : list row) (mode : open_mode) :
  data_to_write self disk ticker data true = Ok (rows, mode, disk') →
  write_stock_data self disk ticker data true
  = (Ok (), _write_data_to_csv_file disk' (_filename_for self ticker) rows mode).
Proof. unfold write_stock_data. intros ->. reflexivity. Qed.

Lemma write_stock_data_raise (self : DataManager) (disk : files)
    (ticker : string) (data : list row) (e : exn) :
  data_to_write self disk ticker data true = Raise e →
  write_stock_data self disk ticker data true = (Raise e, disk).
Proof. unfold write_stock_data. intros ->. reflexivity. Qed.

(** The rows selected when the last date on disk lies strictly between
    the first and the last incoming date and is the date of an incoming
    row: those after the first such row. *)
Lemma append_after_last_date (self : DataManager) (disk : files)
    (ticker : string) (data : list row) (L first_d last_d : string) :
  last_date (_read_csv_file_rows_for self disk ticker) = Some L →
  first_date data = Some first_d →
  last_date data = Some last_d →
  (first_d <? L)%string = true →
  (L <? last_d)%string = true →
  Forall (λ r, length r = 6) data →
  (∃ r, r ∈ data ∧ date_of r = Some L) →
  ∃ (i : nat) (r : row),
    data !! i = Some r ∧ date_of r = Some L
    ∧ (∀ (j : nat) r', j < i → data !! j = Some r' → date_of r' ≠ Some L)
    ∧ data_to_write self disk ticker data true
      = Ok (drop (S i) data, mode_a, disk).
Proof.
  intros HL Hfirst Hlast Hlow Hhigh Hsix Hin.
  rewrite (data_to_write_append self disk ticker data L HL).
  destruct (last_date_Some _ _ Hlast) as (rl & -> & Hrl).
  cbn [mbind res_bind]. rewrite Hrl. cbn [mbind res_bind]. rewrite Hhigh.
  destruct (first_date_Some _ _ Hfirst) as (rf & -> & Hrf).
  cbn [mbind res_bind]. rewrite Hrf. cbn [mbind res_bind]. rewrite Hlow.
  destruct (next_index_of_exists L data 0) as [n Hn]; [| exact Hin |].
  { eapply Forall_impl; [exact Hsix |]. intros [|d r] Hr; [discriminate Hr |].
    simpl. eauto. }
  rewrite Hn. cbn [mbind res_bind].
  apply next_index_of_found in Hn as (i & r & -> & Hi & Hr & Hbefore).
  exists i, r. repeat split; try done.
  replace (0 + i + 1) with (S i) by lia. reflexivity.
Qed.

(** C1: with rows on disk whose last date [L] lies strictly between
    the first and the last incoming date and is the date of an incoming
    row, an appending write appends exactly the incoming rows after
    that row, which for strictly ascending dates are the rows dated
    after [L]; and with the dates 2024-01-01, 2024-01-02 on disk and
    2024-01-01, 2024-01-02, 2024-01-03 incoming, exactly the row of
    2024-01-03 is appended. *)
Theorem C1_append_rows_after_last_date (self : DataManager) (disk : files)
    (ticker : string) :
  (∀ (data : list row) (L first_d last_d : string),
     last_date (_read_csv_file_rows_for self disk ticker) = Some L →
     first_date data = Some first_d →
     last_date data = Some last_d →
     (first_d <? L)%string = true →
     (L <? last_d)%string = true →
     Forall (λ r, length r = 6) data →
     (∃ r, r ∈ data ∧ date_of r = Some L) →
     ∃ (i : nat) (r : row) (content : string),
       data !! i = Some r ∧ date_of r = Some L
       ∧ (∀ (j : nat) r', j < i → data !! j = Some r' → date_of r' ≠ Some L)
       ∧ disk !! _filename_for self ticker = Some content
       ∧ write_stock_data self disk ticker data true
         = (Ok (), <[_filename_for self ticker :=
                       content +:+ csv_text (drop (S i) data)]> disk)
       ∧ (dates_ascending data →
          drop (S i) data = List.filter (dated_after L) data))
  ∧ (∀ (e1 e2 : row) (o1 h1 l1 c1 v1 o2 h2 l2 c2 v2 o3 h3 l3 c3 v3 : string),
       _read_csv_file_rows_for self disk ticker = [e1; e2] →
       date_of e1 = Some "2024-01-01" →
       date_of e2 = Some "2024-01-02" →
       ∃ content,
         disk !! _filename_for self ticker = Some content
         ∧ write_stock_data self disk ticker
             [ ["2024-01-01"; o1; h1; l1; c1; v1];
               ["2024-01-02"; o2; h2; l2; c2; v2];
               ["2024-01-03"; o3; h3; l3; c3; v3] ] true
           = (Ok (), <[_filename_for self ticker :=
                         content +:+
                         csv_text [ ["2024-01-03"; o3; h3; l3; c3; v3] ]]> disk)).
Proof.
  split.
  - intros data L first_d last_d HL Hfirst Hlast Hlow Hhigh Hsix Hin.
    destruct (append_after_last_date self disk ticker data L first_d last_d)
      as (i & r & Hi & Hr & Hbefore & Hsel); try done.
    destruct (read_rows_file self disk ticker) as [content Hcontent].
    { intros Hnil. rewrite Hnil in HL. discriminate HL. }
    exists i, r, content. repeat split; try done.
    + rewrite (write_stock_data_selected _ _ _ _ _ _ _ Hsel).
      rewrite write_csv_append, Hcontent. reflexivity.
    + intros Hasc. symmetry. apply filter_after_index.
      * intros j y Hj Hy. destruct (decide (j = i)) as [-> | Hne].
        { assert (y = r) as -> by congruence.
          destruct r as [|d r]; [done |]. simpl in Hr. injection Hr as ->.
          simpl. apply str_ltb_irrefl. }
        destruct (Hasc j i y r) as (d & d' & Hd & Hd' & Hlt); [lia | done | done |].
        assert (d' = L) as -> by congruence.
        destruct y as [|dy y]; [done |]. simpl in Hd. injection Hd as ->.
        simpl. by apply str_ltb_asym.
      * intros j y Hj Hy.
        destruct (Hasc i j r y) as (d & d' & Hd & Hd' & Hlt); [lia | done | done |].
        assert (d = L) as -> by congruence.
        destruct y as [|dy y]; [done |]. simpl in Hd'. injection Hd' as ->.
        exact Hlt.
  - intros e1 e2 o1 h1 l1 c1 v1 o2 h2 l2 c2 v2 o3 h3 l3 c3 v3 Hread He1 He2.
    destruct (append_after_last_date self disk ticker
                [ ["2024-01-01"; o1; h1; l1; c1; v1];
                  ["2024-01-02"; o2; h2; l2; c2; v2];
                  ["2024-01-03"; o3; h3; l3; c3; v3] ]
                "2024-01-02" "2024-01-01" "2024-01-03")
      as (i & r & Hi & Hr & Hbefore & Hsel); try reflexivity.
    { rewrite Hread. unfold last_date. simpl. exact He2. }
    { repeat constructor. }
    { exists ["2024-01-02"; o2; h2; l2; c2; v2]. split; [| reflexivity].
      apply list_elem_of_further, list_elem_of_here. }
    destruct (read_rows_file self disk ticker) as [content Hcontent].
    { rewrite Hread. discriminate. }
    exists content. split; [done |].
    assert (i = 1) as ->.
    { destruct i as [|[|[|i]]]; simpl in Hi; try done.
      - injection Hi as <-. discriminate Hr.
      - injection Hi as <-. discriminate Hr. }
    rewrite (write_stock_data_selected _ _ _ _ _ _ _ Hsel).
    rewrite write_csv_append, Hcontent. reflexivity.
Qed.

Lemma C1_append_rows_after_last_date_witness :
  _read_csv_file_rows_for sample_manager sample_disk "acme"
    = [ ["2024-01-01"; "1"; "2"; "0"; "1"; "100"];
        ["2024-01-02"; "1"; "3"; "1"; "2"; "150"] ]
  ∧ ∃ content,
      sample_disk !! _filename_for sample_manager "acme" = Some content
      ∧ write_stock_data sample_manager sample_disk "acme" sample_incoming true
        = (Ok (), <[_filename_for sample_manager "acme" :=
                      content +:+
                      csv_text [ ["2024-01-03"; "2"; "4"; "2"; "3"; "120"] ]]>
                    sample_disk).
Proof.
  split; [vm_compute; reflexivity |].
  apply (proj2 (C1_append_rows_after_last_date sample_manager sample_disk "acme")
           ["2024-01-01"; "1"; "2"; "0"; "1"; "100"]
           ["2024-01-02"; "1"; "3"; "1"; "2"; "150"]).
  - vm_compute. reflexivity.
  - reflexivity.
  - reflexivity.
Defined.

(** C2, as the code has it: with rows on disk and incoming rows whose
    first and last row have a date, when the last date on disk is not
    strictly between the first and the last incoming date, an appending
    write raises nothing, appends no row and leaves every file as it
    was. *)
Theorem C2_no_append_outside_containment (self : DataManager) (disk : files)
    (ticker : string) (data : list row) (L first_d last_d : string) :
  last_date (_read_csv_file_rows_for self disk ticker) = Some L →
  first_date data = Some first_d →
  last_date data = Some last_d →
  ¬ ((first_d <? L)%string = true ∧ (L <? last_d)%string = true) →
  data_to_write self disk ticker data true = Ok ([], mode_a, disk)
  ∧ write_stock_data self disk ticker data true = (Ok (), disk).
Proof.
  intros HL Hfirst Hlast Hout.
  assert (Hsel : data_to_write self disk ticker data true = Ok ([], mode_a, disk)).
  { rewrite (data_to_write_append self disk ticker data L HL).
    destruct (last_date_Some _ _ Hlast) as (rl & -> & Hrl).
    cbn [mbind res_bind]. rewrite Hrl. cbn [mbind res_bind].
    destruct (L <? last_d)%string eqn:Hhigh; [| reflexivity].
    destruct (first_date_Some _ _ Hfirst) as (rf & -> & Hrf).
    cbn [mbind res_bind]. rewrite Hrf. cbn [mbind res_bind].
    destruct (first_d <? L)%string eqn:Hlow; [| reflexivity].
    exfalso. apply Hout. split; reflexivity. }
  split; [exact Hsel |].
  rewrite (write_stock_data_selected _ _ _ _ _ _ _ Hsel).
  rewrite write_csv_append_nothing; [reflexivity |].
  apply read_rows_file. intros Hnil. rewrite Hnil in HL. discriminate HL.
Qed.

Lemma C2_no_append_outside_containment_witness :
  last_date (_read_csv_file_rows_for sample_manager sample_disk "acme")
    = Some "2024-01-02"
  ∧ first_date sample_later = Some "2024-02-01"
  ∧ last_date sample_later = Some "2024-02-02"
  ∧ data_to_write sample_manager sample_disk "acme" sample_later true
    = Ok ([], mode_a, sample_disk)
  ∧ write_stock_data sample_manager sample_disk "acme" sample_later true
    = (Ok (), sample_disk).
Proof.
  split; [vm_compute; reflexivity |].
  split; [reflexivity |]. split; [reflexivity |].
  apply (C2_no_append_outside_containment sample_manager sample_disk "acme"
           sample_later "2024-01-02" "2024-02-01" "2024-02-02").
  - vm_compute. reflexivity.
  - reflexivity.
  - reflexivity.
  - intros [Hlow _]. vm_compute in Hlow. discriminate Hlow.
Defined.

(** C2, counterexample: with rows on disk and no incoming row, the last
    date on disk is between no incoming dates, and an appending write
    raises [IndexError] for [data[-1]] instead of appending nothing in
    silence. *)
Lemma C2_empty_incoming_raises :
  _read_csv_file_rows_for sample_manager sample_disk "acme" ≠ []
  ∧ first_date [] = None ∧ last_date [] = None
  ∧ write_stock_data sample_manager sample_disk "acme" [] true
    = (Raise IndexError, sample_disk).
Proof.
  split; [vm_compute; discriminate |].
  split; [reflexivity |]. split; [reflexivity |].
  vm_compute. reflexivity.
Qed.

(** C10: with rows on disk whose last date [L] lies strictly between
    the first and the last incoming date and is the date of no incoming
    row, an appending write raises an exception and leaves every file
    as it was; the exception is [StopIteration], from the search for
    the row dated [L], when every incoming row has a date. *)
Theorem C10_append_raises_without_row_at_last_date (self : DataManager)
    (disk : files) (ticker : string) (data : list row)
    (L first_d last_d : string) :
  last_date (_read_csv_file_rows_for self disk ticker) = Some L →
  first_date data = Some first_d →
  last_date data = Some last_d →
  (first_d <? L)%string = true →
  (L <? last_d)%string = true →
  (∀ r, r ∈ data → date_of r ≠ Some L) →
  ∃ e, write_stock_data self disk ticker data true = (Raise e, disk)
    ∧ (Forall (λ r, is_Some (date_of r)) data → e = StopIteration).
Proof.
  intros HL Hfirst Hlast Hlow Hhigh Hmiss.
  destruct (next_index_of_missing L data 0 Hmiss) as (e & He & Hstop).
  exists e. split; [| exact Hstop].
  apply write_stock_data_raise.
  rewrite (data_to_write_append self disk ticker data L HL).
  destruct (last_date_Some _ _ Hlast) as (rl & -> & Hrl).
  cbn [mbind res_bind]. rewrite Hrl. cbn [mbind res_bind]. rewrite Hhigh.
  destruct (first_date_Some _ _ Hfirst) as (rf & -> & Hrf).
  cbn [mbind res_bind]. rewrite Hrf. cbn [mbind res_bind]. rewrite Hlow.
  rewrite He. reflexivity.
Qed.

Lemma C10_append_raises_without_row_at_last_date_witness :
  last_date (_read_csv_file_rows_for sample_manager sample_disk "acme")
    = Some "2024-01-02"
  ∧ ∃ e, write_stock_data sample_manager sample_disk "acme" sample_gap true
         = (Raise e, sample_disk)
      ∧ (Forall (λ r, is_Some (date_of r)) sample_gap → e = StopIteration).
Proof.
  split; [vm_compute; reflexivity |].
  apply (C10_append_raises_without_row_at_last_date sample_manager sample_disk
           "acme" sample_gap "2024-01-02" "2024-01-01" "2024-01-03").
  - vm_compute. reflexivity.
  - reflexivity.
  - reflexivity.
  - reflexivity.
  - reflexivity.
  - intros r Hr. apply list_elem_of_In in Hr. simpl in Hr.
    destruct Hr as [<- | [<- | []]]; discriminate.
Defined.

Example append_without_row_at_last_date :
  write_stock_data sample_manager sample_disk "acme" sample_gap true
  = (Raise StopIteration, sample_disk).
Proof. vm_compute. reflexivity. Qed.

(** ** Trimming *)

Lemma lstrip_length (s : string) :
  Str.lstrip s = s ∨ String.length (Str.lstrip s) < String.length s.
Proof.
  induction s as [|c s IH]; simpl; [by left |].
  destruct (Str.is_space c); [| by left].
  right. destruct IH as [-> | IH]; lia.
Qed.

Lemma rstrip_length (s : string) :
  Str.rstrip s = s ∨ String.length (Str.rstrip s) < String.length s.
Proof.
  induction s as [|c s IH]; simpl; [by left |].
  destruct IH as [-> | IH].
  - destruct s as [|d s]; [| by left].
    destruct (Str.is_space c); [right; simpl; lia | by left].
  - right. destruct (Str.rstrip s) as [|d r]; simpl in *.
    + destruct (Str.is_space c); simpl; lia.
    + lia.
Qed.

(** A string that [strip] leaves alone has no white space at either
    end. *)
Lemma strip_fixed (s : string) :
  Str.strip s = s → Str.lstrip s = s ∧ Str.rstrip s = s.
Proof.
  unfold Str.strip. intros Hs.
  destruct (lstrip_length s) as [Hl | Hl].
  - rewrite Hl in Hs. by split.
  - exfalso. destruct (rstrip_length (Str.lstrip s)) as [Hr | Hr].
    + rewrite Hr in Hs. rewrite Hs in Hl. lia.
    + rewrite Hs in Hr. lia.
Qed.

Lemma rstrip_idemp (s : string) : Str.rstrip (Str.rstrip s) = Str.rstrip s.
Proof.
  induction s as [|c s IH]; [reflexivity |]. simpl.
  destruct (Str.rstrip s) as [|d r] eqn:Hr.
  - destruct (Str.is_space c) eqn:Hc; [reflexivity |]. simpl. by rewrite Hc.
  - change (Str.rstrip (String c (String d r)))
      with (match Str.rstrip (String d r) with
            | EmptyString =>
                if Str.is_space c then EmptyString else String c EmptyString
            | r' => String c r'
            end).
    rewrite IH. reflexivity.
Qed.

Lemma rstrip_head (c : ascii) (s : string) :
  Str.is_space c = false → ∃ r, Str.rstrip (String c s) = String c r.
Proof.
  intros Hc. simpl. destruct (Str.rstrip s); rewrite ?Hc; eauto.
Qed.

Lemma lstrip_rstrip_lstrip (s : string) :
  Str.lstrip (Str.rstrip (Str.lstrip s)) = Str.rstrip (Str.lstrip s).
Proof.
  induction s as [|c s IH]; [reflexivity |]. simpl.
  destruct (Str.is_space c) eqn:Hc; [exact IH |].
  destruct (rstrip_head c s Hc) as [r ->]. simpl. by rewrite Hc.
Qed.

Lemma strip_idemp (s : string) : Str.strip (Str.strip s) = Str.strip s.
Proof.
  unfold Str.strip. rewrite lstrip_rstrip_lstrip. apply rstrip_idemp.
Qed.

Lemma lstrip_app (s t : string) :
  Str.lstrip s = s → s ≠ "" → Str.lstrip (s +:+ t) = s +:+ t.
Proof.
  destruct s as [|c s]; [done |]. intros Hs _. rewrite str_app_cons.
  simpl in *. destruct (Str.is_space c); [| reflexivity].
  exfalso. destruct (lstrip_length s) as [Hl | Hl].
  - rewrite Hl in Hs. apply (f_equal String.length) in Hs. simpl in Hs. lia.
  - rewrite Hs in Hl. simpl in Hl. lia.
Qed.

Lemma rstrip_app (s t : string) :
  Str.rstrip t = t → t ≠ "" → Str.rstrip (s +:+ t) = s +:+ t.
Proof.
  intros Ht Hne. induction s as [|c s IH]; [exact Ht |].
  rewrite str_app_cons. simpl. rewrite IH.
  destruct (s +:+ t) eqn:Hst; [| reflexivity].
  destruct s; [| discriminate Hst]. simpl in Hst. contradiction.
Qed.

Lemma rstrip_app_space (s : string) (c : ascii) :
  Str.is_space c = true → Str.rstrip (s +:+ String c "") = Str.rstrip s.
Proof.
  intros Hc. induction s as [|d s IH].
  - simpl. by rewrite Hc.
  - rewrite str_app_cons. simpl. by rewrite IH.
Qed.

(** A line without white space around it is read back as written. *)
Lemma strip_line (s : string) :
  Str.strip s = s → Str.strip (s +:+ TextFile.newline) = s.
Proof.
  intros [Hl Hr]%strip_fixed. unfold Str.strip.
  destruct (decide (s = "")) as [-> | Hne]; [reflexivity |].
  rewrite lstrip_app by done.
  unfold TextFile.newline. rewrite rstrip_app_space by reflexivity. exact Hr.
Qed.

(** ** Splitting and joining *)

Lemma contains_cons (c d : ascii) (s : string) :
  Str.contains c (String d s) = bool_decide (d = c) || Str.contains c s.
Proof. reflexivity. Qed.

Lemma contains_app (c : ascii) (s t : string) :
  Str.contains c (s +:+ t) = Str.contains c s || Str.contains c t.
Proof.
  induction s as [|d s IH]; [reflexivity |].
  rewrite str_app_cons. simpl. rewrite IH. by rewrite orb_assoc.
Qed.

Lemma split_without_sep (sep : ascii) (f : string) :
  Str.contains sep f = false → Str.split sep f = [f].
Proof.
  induction f as [|c f IH]; [reflexivity |]. simpl.
  intros [Hc Hf]%orb_false_elim. apply bool_decide_eq_false in Hc.
  destruct (decide (c = sep)); [contradiction |]. by rewrite IH.
Qed.

Lemma split_app_sep (sep : ascii) (f rest : string) :
  Str.contains sep f = false →
  Str.split sep (f +:+ String sep rest) = f :: Str.split sep rest.
Proof.
  induction f as [|c f IH].
  - intros _. simpl. destruct (decide (sep = sep)); [reflexivity | contradiction].
  - rewrite str_app_cons. simpl.
    intros [Hc Hf]%orb_false_elim. apply bool_decide_eq_false in Hc.
    destruct (decide (c = sep)); [contradiction |]. by rewrite IH.
Qed.

(** Fields without the separator are recovered from their join. *)
Lemma split_join (sep : ascii) (l : list string) :
  l ≠ [] →
  Forall (λ f, Str.contains sep f = false) l →
  Str.split sep (Str.join (String sep "") l) = l.
Proof.
  intros Hne Hall. induction Hall as [|f l Hf Hall IH]; [done |].
  destruct l as [|g l].
  - simpl. by apply split_without_sep.
  - change (Str.join (String sep "") (f :: g :: l))
      with (f +:+ String sep "" +:+ Str.join (String sep "") (g :: l)).
    change (String sep "" +:+ Str.join (String sep "") (g :: l))
      with (String sep (Str.join (String sep "") (g :: l))).
    rewrite split_app_sep by done. f_equal. by apply IH.
Qed.

Lemma contains_join (c sep : ascii) (l : list string) :
  c ≠ sep →
  Forall (λ f, Str.contains c f = false) l →
  Str.contains c (Str.join (String sep "") l) = false.
Proof.
  intros Hne Hall. induction Hall as [|f l Hf Hall IH]; [reflexivity |].
  destruct l as [|g l]; [exact Hf |].
  change (Str.join (String sep "") (f :: g :: l))
    with (f +:+ String sep (Str.join (String sep "") (g :: l))).
  rewrite contains_app, Hf, contains_cons, IH.
  rewrite bool_decide_eq_false_2; [reflexivity | congruence].
Qed.

(** The join of trimmed fields is trimmed. *)
Lemma lstrip_join (l : list string) :
  Forall (λ f, Str.strip f = f) l → Str.lstrip (Str.join "," l) = Str.join "," l.
Proof.
  intros Hall. destruct Hall as [|f l Hf Hall]; [reflexivity |].
  apply strip_fixed in Hf as [Hf _].
  destruct l as [|g l]; [exact Hf |].
  change (Str.join "," (f :: g :: l)) with (f +:+ "," +:+ Str.join "," (g :: l)).
  destruct (decide (f = "")) as [-> | Hne]; [reflexivity |].
  by apply lstrip_app.
Qed.

Lemma rstrip_join (l : list string) :
  Forall (λ f, Str.strip f = f) l → Str.rstrip (Str.join "," l) = Str.join "," l.
Proof.
  intros Hall. induction Hall as [|f l Hf Hall IH]; [reflexivity |].
  destruct l as [|g l]; [by apply strip_fixed in Hf as [_ Hf] |].
  change (Str.join "," (f :: g :: l))
    with (f +:+ String "," (Str.join "," (g :: l))).
  apply rstrip_app; [| discriminate].
  revert IH. generalize (Str.join "," (g :: l)). intros t IH.
  cbn [Str.rstrip]. rewrite IH. destruct t; reflexivity.
Qed.

Lemma strip_join (l : list string) :
  Forall (λ f, Str.strip f = f) l → Str.strip (Str.join "," l) = Str.join "," l.
Proof.
  intros Hall. unfold Str.strip. rewrite lstrip_join by done. by apply rstrip_join.
Qed.

(** ** The lines of a file *)

Lemma universal_newlines_without_cr (s : string) :
  Str.contains TextFile.CR s = false → TextFile.universal_newlines s = s.
Proof.
  induction s as [|c s IH]; [reflexivity |]. simpl.
  intros [Hc Hs]%orb_false_elim. apply bool_decide_eq_false in Hc.
  destruct (decide (c = TextFile.CR)); [contradiction |]. by rewrite IH.
Qed.

Lemma lines_keepends_line (l rest : string) :
  Str.contains TextFile.LF l = false →
  TextFile.lines_keepends (l +:+ TextFile.newline +:+ rest)
  = (l +:+ TextFile.newline) :: TextFile.lines_keepends rest.
Proof.
  induction l as [|c l IH].
  - intros _. reflexivity.
  - rewrite !str_app_cons. simpl.
    intros [Hc Hl]%orb_false_elim. apply bool_decide_eq_false in Hc.
    destruct (decide (c = TextFile.LF)); [contradiction |]. by rewrite IH.
Qed.

Lemma contains_csv_text (c : ascii) (data : list row) :
  c ≠ ","%char → c ≠ TextFile.LF →
  Forall (Forall (λ f, Str.contains c f = false)) data →
  Str.contains c (csv_text data) = false.
Proof.
  intros Hcomma Hlf Hall. induction Hall as [|r data Hr Hall IH]; [reflexivity |].
  cbn [csv_text]. rewrite !contains_app, IH, (contains_join c "," r) by done.
  unfold TextFile.newline. rewrite contains_cons.
  rewrite bool_decide_eq_false_2; [reflexivity | congruence].
Qed.

(** The lines of the text of rows are the joined rows. *)
Lemma iter_lines_csv_text (data : list row) :
  Forall (Forall (λ f, Str.contains TextFile.LF f = false)) data →
  Forall (Forall (λ f, Str.contains TextFile.CR f = false)) data →
  TextFile.iter_lines (csv_text data)
  = (λ r, Str.join "," r +:+ TextFile.newline) <$> data.
Proof.
  intros Hlf Hcr. unfold TextFile.iter_lines.
  rewrite universal_newlines_without_cr
    by (apply contains_csv_text; [discriminate | discriminate | done]).
  induction Hlf as [|r data Hr Hlf IH]; [reflexivity |].
  apply Forall_cons_1 in Hcr as [_ Hcr].
  simpl csv_text. rewrite str_app_assoc, lines_keepends_line.
  - rewrite IH by done. reflexivity.
  - apply contains_join; [discriminate | done].
Qed.

(** ** Reading a series *)

Lemma readlines_for_missing (self : DataManager) (disk : files) (ticker : string) :
  disk !! _filename_for self ticker = None → _readlines_for self disk ticker = [].
Proof.
  intros Hnone. unfold _readlines_for, _has_file_for. rewrite Hnone.
  rewrite bool_decide_eq_false_2; [reflexivity |]. by intros [? ?].
Qed.

Lemma readlines_for_content (self : DataManager) (disk : files)
    (ticker content : string) :
  disk !! _filename_for self ticker = Some content →
  _readlines_for self disk ticker = Str.strip <$> TextFile.iter_lines content.
Proof.
  intros Hsome. unfold _readlines_for, _has_file_for. rewrite Hsome.
  rewrite bool_decide_eq_true_2; [reflexivity | eauto].
Qed.

(** C8: reading a ticker without a file in row format gives the empty
    list and no error; reading a ticker with a file gives, line by line
    in the order of the file, the fields between the commas, each trimmed
    of the white space around it, as text. *)
Theorem C8_read_rows (self : DataManager) (disk : files) (ticker : string) :
  (disk !! _filename_for self ticker = None →
   read_stock_data self disk ticker "row" = Ok [])
  ∧ (∀ content : string,
       disk !! _filename_for self ticker = Some content →
       ∃ rows : list (list string),
         read_stock_data self disk ticker "row" = Ok rows
         ∧ rows = (λ line, Str.strip <$> Str.split "," (Str.strip line))
                    <$> TextFile.iter_lines content
         ∧ Forall (Forall (λ f, Str.strip f = f)) rows).
Proof.
  split.
  - intros Hnone. rewrite read_row_format, read_rows_fmap.
    by rewrite readlines_for_missing.
  - intros content Hsome. eexists. split; [| split].
    + rewrite read_row_format, read_rows_fmap.
      rewrite (readlines_for_content _ _ _ _ Hsome), <- list_fmap_compose.
      reflexivity.
    + reflexivity.
    + apply Forall_fmap, Forall_true. intros line. simpl.
      apply Forall_fmap, Forall_true. intros f. simpl. apply strip_idemp.
Qed.

Lemma C8_read_rows_witness :
  (sample_disk !! _filename_for sample_manager "none" = None
   ∧ read_stock_data sample_manager sample_disk "none" "row" = Ok [])
  ∧ (sample_disk !! _filename_for sample_manager "acme"
     = Some ("2024-01-01,1,2,0,1,100" +:+ TextFile.newline +:+
             "2024-01-02,1,3,1,2,150" +:+ TextFile.newline)
     ∧ ∃ rows : list (list string),
         read_stock_data sample_manager sample_disk "acme" "row" = Ok rows
         ∧ rows = (λ line, Str.strip <$> Str.split "," (Str.strip line))
                    <$> TextFile.iter_lines
                          ("2024-01-01,1,2,0,1,100" +:+ TextFile.newline +:+
                           "2024-01-02,1,3,1,2,150" +:+ TextFile.newline)
         ∧ Forall (Forall (λ f, Str.strip f = f)) rows).
Proof.
  split.
  - split; [vm_compute; reflexivity |].
    apply (proj1 (C8_read_rows sample_manager sample_disk "none")).
    vm_compute. reflexivity.
  - split; [vm_compute; reflexivity |].
    apply (proj2 (C8_read_rows sample_manager sample_disk "acme")).
    vm_compute. reflexivity.
Defined.

Example read_rows_trims_fields :
  read_stock_data sample_manager
    {[ "data/ACME.csv" := " 2024-01-01 , 1,2 ,0,1,100 " ]} "Acme" "row"
  = Ok [ ["2024-01-01"; "1"; "2"; "0"; "1"; "100"] ].
Proof. vm_compute. reflexivity. Qed.

(** ** Writing a series and reading it back *)

Lemma write_stock_data_overwrite (self : DataManager) (disk : files)
    (ticker : string) (data : list row) :
  ∃ disk', write_stock_data self disk ticker data false = (Ok (), disk')
    ∧ disk' !! _filename_for self ticker = Some (csv_text data).
Proof.
  unfold write_stock_data, data_to_write. eexists. split; [reflexivity |].
  rewrite write_csv_truncate. apply lookup_insert_eq.
Qed.

Lemma read_back_row (r : row) :
  length r = 6 → Forall clean_field r →
  Str.strip <$> Str.split "," (Str.strip (Str.join "," r +:+ TextFile.newline))
  = r.
Proof.
  intros Hlen Hclean.
  assert (Htrim : Forall (λ f, Str.strip f = f) r).
  { eapply Forall_impl; [exact Hclean |]. by intros f (_ & _ & _ & ?). }
  rewrite strip_line by (by apply strip_join).
  rewrite (split_join "," r).
  - clear Hlen Hclean. induction Htrim as [|f r Hf _ IH]; [reflexivity |].
    rewrite fmap_cons, Hf, IH. reflexivity.
  - intros ->. discriminate Hlen.
  - eapply Forall_impl; [exact Hclean |]. by intros f (? & _).
Qed.

(** C5: rows of six fields that hold no comma and no line end and have
    no white space around them, written with [append=false], are the
    rows read back in row format. *)
Theorem C5_write_then_read_round_trip (self : DataManager) (disk : files)
    (ticker : string) (data : list row) :
  Forall (λ r, length r = 6 ∧ Forall clean_field r) data →
  ∃ disk' : files,
    write_stock_data self disk ticker data false = (Ok (), disk')
    ∧ read_stock_data self disk' ticker "row" = Ok data.
Proof.
  intros Hdata.
  destruct (write_stock_data_overwrite self disk ticker data)
    as (disk' & Hwrite & Hfile).
  exists disk'. split; [exact Hwrite |].
  rewrite read_row_format, read_rows_fmap.
  rewrite (readlines_for_content _ _ _ _ Hfile), <- list_fmap_compose.
  rewrite iter_lines_csv_text.
  - rewrite <- list_fmap_compose. f_equal. clear Hwrite Hfile.
    induction Hdata as [|r data [Hlen Hclean] _ IH]; [reflexivity |].
    rewrite fmap_cons, IH. f_equal. exact (read_back_row r Hlen Hclean).
  - eapply Forall_impl; [exact Hdata |]. intros r [_ Hclean].
    eapply Forall_impl; [exact Hclean |]. by intros f (_ & ? & _).
  - eapply Forall_impl; [exact Hdata |]. intros r [_ Hclean].
    eapply Forall_impl; [exact Hclean |]. by intros f (_ & _ & ? & _).
Qed.

Lemma C5_write_then_read_round_trip_witness :
  Forall (λ r, length r = 6 ∧ Forall clean_field r) sample_incoming
  ∧ ∃ disk' : files,
      write_stock_data sample_manager sample_disk "acme" sample_incoming false
      = (Ok (), disk')
      ∧ read_stock_data sample_manager disk' "acme" "row" = Ok sample_incoming.
Proof.
  assert (Hclean :
    Forall (λ r, length r = 6 ∧ Forall clean_field r) sample_incoming).
  { unfold sample_incoming, clean_field. repeat constructor. }
  split; [exact Hclean |].
  apply (C5_write_then_read_round_trip sample_manager sample_disk "acme"
           sample_incoming Hclean).
Defined.

(** A carriage return inside a field ends a line when the file is read:
    such a field does not come back. *)
Example carriage_return_splits_row :
  ∃ disk' : files,
    write_stock_data sample_manager ∅ "acme"
      [ [String "a" (String TextFile.CR "b"); "1"; "2"; "0"; "1"; "100"] ] false
    = (Ok (), disk')
    ∧ read_stock_data sample_manager disk' "acme" "row"
      = Ok [ ["a"]; ["b"; "1"; "2"; "0"; "1"; "100"] ].
Proof. eexists. split; [reflexivity |]. vm_compute. reflexivity. Qed.

(** ** Calendar dates *)

Section DatetimeFacts.

Import Datetime.
Local Open Scope Z_scope.

Lemma days_in_month_bounds (y m : Z) : 28 ≤ days_in_month y m ≤ 31.
Proof.
  unfold days_in_month.
  destruct (m =? 2); [destruct (is_leap y); lia |].
  destruct ((m =? 4) || (m =? 6) || (m =? 9) || (m =? 11)); lia.
Qed.

Lemma valid_bounds (a : datetime) :
  valid a = true →
  1 ≤ year a ≤ 9999 ∧ 1 ≤ month a ≤ 12
  ∧ 1 ≤ day a ≤ days_in_month (year a) (month a).
Proof.
  unfold valid, MINYEAR, MAXYEAR. rewrite !andb_true_iff, !Z.leb_le. lia.
Qed.

Lemma valid_intro (a : datetime) :
  1 ≤ year a ≤ 9999 → 1 ≤ month a ≤ 12 →
  1 ≤ day a ≤ days_in_month (year a) (month a) →
  valid a = true.
Proof.
  unfold valid, MINYEAR, MAXYEAR. rewrite !andb_true_iff, !Z.leb_le. lia.
Qed.

Lemma make_valid (y m d : Z) (a : datetime) :
  make y m d = Ok a → valid a = true.
Proof.
  unfold make. destruct (valid _) eqn:Hv; [| discriminate].
  intros [= <-]. exact Hv.
Qed.

Lemma strptime_valid (s : string) (a : datetime) :
  strptime s = Ok a → valid a = true.
Proof.
  unfold strptime. destruct (Str.split "-" s) as [|ys [|ms [|ds [|x l]]]];
    try discriminate.
  destruct (parse_year ys), (parse_month ms), (parse_day ds); try discriminate.
  apply make_valid.
Qed.

(** The order of dates is the order of their ranks. *)
Lemma ltb_rank (a b : datetime) :
  valid a = true → valid b = true →
  ltb a b = true ↔ rank a < rank b.
Proof.
  intros Ha%valid_bounds Hb%valid_bounds.
  pose proof (days_in_month_bounds (year a) (month a)).
  pose proof (days_in_month_bounds (year b) (month b)).
  unfold ltb, rank.
  rewrite !orb_true_iff, !andb_true_iff, !orb_true_iff, !andb_true_iff,
    !Z.ltb_lt, !Z.eqb_eq.
  lia.
Qed.

Lemma ltb_rank_false (a b : datetime) :
  valid a = true → valid b = true →
  ltb a b = false ↔ rank b ≤ rank a.
Proof.
  intros Ha Hb. pose proof (ltb_rank a b Ha Hb) as H.
  destruct (ltb a b).
  - split; [discriminate |]. intros Hle.
    assert (rank a < rank b) by (by apply H). lia.
  - split; [| reflexivity]. intros _.
    destruct (decide (rank a < rank b)) as [Hlt | Hge]; [| lia].
    apply H in Hlt. discriminate.
Qed.

Lemma rank_inj (a b : datetime) :
  valid a = true → valid b = true → rank a = rank b → a = b.
Proof.
  intros Ha%valid_bounds Hb%valid_bounds.
  pose proof (days_in_month_bounds (year a) (month a)).
  pose proof (days_in_month_bounds (year b) (month b)).
  destruct a as [ya ma da], b as [yb mb db]. unfold rank. simpl in *.
  intros Hr. assert (ya = yb) by lia. assert (ma = mb) by lia.
  assert (da = db) by lia. congruence.
Qed.

(** The day after [a], when a valid date comes after [a]: it is valid,
    and no valid date lies between [a] and it. *)
Lemma add_day_next (a b : datetime) :
  valid a = true → valid b = true → rank a < rank b →
  ∃ a', add_day a = Ok a' ∧ valid a' = true ∧ rank a < rank a'
    ∧ ∀ c, valid c = true → rank a < rank c → rank a' ≤ rank c.
Proof.
  intros Ha Hb Hab.
  pose proof (valid_bounds a Ha) as Ba. pose proof (valid_bounds b Hb) as Bb.
  pose proof (days_in_month_bounds (year a) (month a)) as Da.
  pose proof (days_in_month_bounds (year b) (month b)) as Db.
  unfold add_day, MAXYEAR.
  destruct (day a <? days_in_month (year a) (month a)) eqn:Hd.
  - apply Z.ltb_lt in Hd. eexists. split; [reflexivity |].
    split; [apply valid_intro; simpl; lia |].
    split; [unfold rank; simpl; lia |].
    intros c Hc%valid_bounds. unfold rank. simpl.
    pose proof (days_in_month_bounds (year c) (month c)) as Dc. lia.
  - apply Z.ltb_ge in Hd.
    destruct (month a <? 12) eqn:Hm.
    + apply Z.ltb_lt in Hm. eexists. split; [reflexivity |].
      split.
      { apply valid_intro; simpl; try lia.
        pose proof (days_in_month_bounds (year a) (month a + 1)). lia. }
      split; [unfold rank; simpl; lia |].
      intros c Hc%valid_bounds. unfold rank. simpl.
      pose proof (days_in_month_bounds (year c) (month c)) as Dc.
      intros Hlt.
      destruct (decide (year c = year a ∧ month c = month a)) as [[Hy Hmm] | Hn];
        [rewrite Hy, Hmm in Hc |]; lia.
    + apply Z.ltb_ge in Hm.
      destruct (year a <? 9999) eqn:Hy.
      * apply Z.ltb_lt in Hy. eexists. split; [reflexivity |].
        split.
        { apply valid_intro; simpl; try lia.
          pose proof (days_in_month_bounds (year a + 1) 1). lia. }
        split; [unfold rank; simpl; lia |].
        intros c Hc%valid_bounds. unfold rank. simpl.
        pose proof (days_in_month_bounds (year c) (month c)) as Dc.
        intros Hlt.
        destruct (decide (year c = year a ∧ month c = month a))
          as [[Hyc Hmm] | Hn]; [rewrite Hyc, Hmm in Hc |]; lia.
      * apply Z.ltb_ge in Hy. exfalso. unfold rank in Hab.
        destruct (decide (year b = year a ∧ month b = month a))
          as [[Hyb Hmb] | Hn]; [rewrite Hyb, Hmb in Bb |]; lia.
Qed.

Lemma digit_char_inj (m n : Z) :
  0 ≤ m ≤ 9 → 0 ≤ n ≤ 9 → digit_char m = digit_char n → m = n.
Proof.
  intros Hm Hn Heq. unfold digit_char in Heq.
  apply (f_equal N_of_ascii) in Heq.
  rewrite !N_ascii_embedding in Heq by lia. lia.
Qed.

Lemma strftime_chars (a : datetime) :
  strftime a
  = String (digit_char (year a / 1000))
      (String (digit_char (year a / 100 mod 10))
         (String (digit_char (year a mod 100 / 10))
            (String (digit_char (year a mod 100 mod 10))
               (String "-"
                  (String (digit_char (month a / 10))
                     (String (digit_char (month a mod 10))
                        (String "-"
                           (String (digit_char (day a / 10))
                              (String (digit_char (day a mod 10))
                                 EmptyString))))))))).
Proof. reflexivity. Qed.

(** Valid dates with the same text are the same date. *)
Lemma strftime_inj (a b : datetime) :
  valid a = true → valid b = true → strftime a = strftime b → a = b.
Proof.
  intros Ha%valid_bounds Hb%valid_bounds.
  pose proof (days_in_month_bounds (year a) (month a)).
  pose proof (days_in_month_bounds (year b) (month b)).
  rewrite !strftime_chars.
  intros [= Hy1 Hy2 Hy3 Hy4 Hm1 Hm2 Hd1 Hd2].
  apply digit_char_inj in Hy1, Hy2, Hy3, Hy4, Hm1, Hm2, Hd1, Hd2;
    try (Z.div_mod_to_equations; lia).
  destruct a as [ya ma da], b as [yb mb db]. simpl in *.
  assert (ya = yb) by (Z.div_mod_to_equations; lia).
  assert (ma = mb) by (Z.div_mod_to_equations; lia).
  assert (da = db) by (Z.div_mod_to_equations; lia).
  congruence.
Qed.

End DatetimeFacts.

(** ** The loops of the price look-up table *)

Section LoopFacts.

Import Datetime.

Variable pyfloat : Type.
Variable float : string → res pyfloat.

Lemma while_loop_done {S : Type} (fuel : nat) (cond : S → bool)
    (body : S → res S) (s : S) :
  cond s = false → while_loop fuel cond body s = Some (Ok s).
Proof. intros Hc. destruct fuel; simpl; by rewrite Hc. Qed.

Lemma while_loop_turn {S : Type} (fuel : nat) (cond : S → bool)
    (body : S → res S) (s s' : S) :
  cond s = true → body s = Ok s' →
  while_loop (Datatypes.S fuel) cond body s = while_loop fuel cond body s'.
Proof. intros Hc Hb. simpl. by rewrite Hc, Hb. Qed.

(** The [while] loop with [fill]: it ends, and every day from the
    running date up to the day before [next_d] gets the price. *)
Lemma fill_loop (fields : list string) (close_text : string) (v : pyfloat)
    (next_d : datetime) (fuel : nat) :
  fields !! 4 = Some close_text → float close_text = Ok v →
  valid next_d = true →
  ∀ (curr : datetime) (lut : gmap string pyfloat),
    valid curr = true → (rank curr ≤ rank next_d)%Z →
    (Z.to_nat (rank next_d - rank curr) ≤ fuel)%nat →
    ∃ final lut',
      while_loop fuel (λ s, ltb s.1 next_d) (fill_step float true fields next_d)
        (curr, lut) = Some (Ok (final, lut'))
      ∧ lut_step true curr next_d v lut lut'.
Proof.
  intros Hclose Hfloat Hnext.
  induction fuel as [|fuel IH]; intros curr lut Hcurr Hle Hfuel.
  - assert (rank curr = rank next_d) as Heq by lia.
    exists curr, lut. split.
    + apply while_loop_done. simpl. apply ltb_rank_false; [done | done | lia].
    + split; [intros c _ Hc; lia | by left].
  - destruct (decide (rank curr < rank next_d)%Z) as [Hlt | Hge].
    + destruct (add_day_next curr next_d Hcurr Hnext Hlt)
        as (curr' & Hadd & Hcurr' & Hstep & Hnone).
      destruct (IH curr' (<[strftime curr := v]> lut))
        as (final & lut' & Hrun & Hfill & Hrest);
        [done | by apply Hnone | lia |].
      exists final, lut'. split.
      * rewrite (while_loop_turn _ _ _ _ (curr', <[strftime curr := v]> lut));
          [exact Hrun | simpl; by apply ltb_rank |].
        unfold fill_step. rewrite (py_index_Some _ _ _ Hclose).
        cbn [mbind res_bind]. rewrite Hfloat. cbn [mbind res_bind].
        rewrite Hadd. reflexivity.
      * split.
        -- intros c Hc Hrange.
           destruct (decide (rank curr < rank c)%Z) as [Hafter | Hhere].
           ++ apply Hfill; [done |]. split; [by apply Hnone | lia].
           ++ assert (c = curr) as -> by (apply rank_inj; [done | done | lia]).
              destruct (Hrest (strftime curr)) as [-> | (c' & Hc' & Hrange' & Heq)].
              ** apply lookup_insert_eq.
              ** apply strftime_inj in Heq; [| done | done]. subst c'. lia.
        -- intros k. destruct (Hrest k) as [Hk | (c & Hc & Hrange & ->)].
           ++ destruct (decide (k = strftime curr)) as [-> | Hne].
              ** right. exists curr. split; [done |]. split; [lia | done].
              ** left. rewrite Hk. by apply lookup_insert_ne.
           ++ right. exists c. split; [done |]. split; [lia | done].
    + exists curr, lut. split.
      * apply while_loop_done. simpl. apply ltb_rank_false; [done | done | lia].
      * split; [intros c _ Hc; lia | by left].
Qed.

(** The [while] loop without [fill]: one turn. *)
Lemma nofill_loop (fields : list string) (close_text : string) (v : pyfloat)
    (curr next_d : datetime) (lut : gmap string pyfloat) :
  fields !! 4 = Some close_text → float close_text = Ok v →
  valid curr = true → valid next_d = true → ltb curr next_d = true →
  while_loop (span curr next_d) (λ s, ltb s.1 next_d)
    (fill_step float false fields next_d) (curr, lut)
  = Some (Ok (next_d, <[strftime curr := v]> lut)).
Proof.
  intros Hclose Hfloat Hcurr Hnext Hlt.
  assert (rank curr < rank next_d)%Z as Hrank by (by apply ltb_rank).
  unfold span. destruct (Z.to_nat (rank next_d - rank curr)) as [|fuel] eqn:Hf;
    [lia |].
  rewrite (while_loop_turn _ _ _ _ (next_d, <[strftime curr := v]> lut)).
  - apply while_loop_done. simpl. apply ltb_rank_false; [done | done | lia].
  - exact Hlt.
  - unfold fill_step. rewrite (py_index_Some _ _ _ Hclose).
    cbn [mbind res_bind]. rewrite Hfloat. reflexivity.
Qed.

End LoopFacts.

(** ** Building the table, row by row *)

Section TableFacts.

Import Datetime.

Variable pyfloat : Type.
Variable float : string → res pyfloat.

Lemma series_lookup (lines : list string)
    (entries : list (datetime * pyfloat)) (i : nat) (d : datetime) (v : pyfloat) :
  series_of_lines float lines entries → entries !! i = Some (d, v) →
  ∃ line, lines !! i = Some line ∧ row_of_line float line d v.
Proof.
  intros Hseries Hi.
  destruct (Forall2_lookup_r _ _ _ _ _ Hseries Hi) as (line & Hline & Hrow).
  eauto.
Qed.

Lemma series_valid (lines : list string)
    (entries : list (datetime * pyfloat)) (i : nat) (d : datetime) (v : pyfloat) :
  series_of_lines float lines entries → entries !! i = Some (d, v) →
  valid d = true.
Proof.
  intros Hseries Hi.
  destruct (series_lookup _ _ _ _ _ Hseries Hi) as (line & _ & Hrow).
  destruct Hrow as (dt & ct & _ & Hd & _). by apply strptime_valid in Hd.
Qed.

(** Strictly ascending dates have strictly ascending ranks. *)
Lemma ascending_rank (lines : list string)
    (entries : list (datetime * pyfloat)) :
  series_of_lines float lines entries → dates_strictly_ascending entries →
  ∀ (n i : nat) d v d' v',
    entries !! i = Some (d, v) → entries !! (i + S n) = Some (d', v') →
    (rank d < rank d')%Z.
Proof.
  intros Hseries Hasc. induction n as [|n IH]; intros i d v d' v' Hi Hj.
  - replace (i + 1) with (S i) in Hj by lia.
    apply ltb_rank; [by eapply series_valid | by eapply series_valid |].
    by eapply Hasc.
  - destruct (lookup_lt_is_Some_2 entries (i + S n)) as [[d1 v1] H1].
    { apply lookup_lt_Some in Hj. lia. }
    pose proof (IH i d v d1 v1 Hi H1) as Hlt1.
    replace (i + S (S n)) with (S (i + S n)) in Hj by lia.
    assert (rank d1 < rank d')%Z; [| lia].
    apply ltb_rank; [by eapply series_valid | by eapply series_valid |].
    by eapply Hasc.
Qed.

Lemma ascending_rank_le (lines : list string)
    (entries : list (datetime * pyfloat)) (i j : nat) d v d' v' :
  series_of_lines float lines entries → dates_strictly_ascending entries →
  (i ≤ j)%nat → entries !! i = Some (d, v) → entries !! j = Some (d', v') →
  (rank d ≤ rank d')%Z.
Proof.
  intros Hseries Hasc Hij Hi Hj.
  destruct (decide (i = j)) as [-> | Hne].
  - assert (d = d') by congruence. subst. lia.
  - assert (rank d < rank d')%Z; [| lia].
    eapply (ascending_rank _ _ Hseries Hasc (j - i - 1) i); [exact Hi |].
    replace (i + S (j - i - 1)) with j by lia. exact Hj.
Qed.

(** One turn of the [for] loop. *)
Lemma lut_for_body_step (fill : bool) (lines : list string)
    (entries : list (datetime * pyfloat)) (i : nat) d v d' v'
    (vars : lut_locals pyfloat) :
  series_of_lines float lines entries →
  entries !! i = Some (d, v) → entries !! S i = Some (d', v') →
  ltb d d' = true →
  ∃ lut' line',
    lines !! S i = Some line'
    ∧ lut_for_body float fill lines i vars
      = Some (Ok {| price_lookup := lut';
                    i := Some i;
                    next_line_data := Some (Str.split "," line');
                    next_date := Some d' |})
    ∧ lut_step fill d d' v (price_lookup vars) lut'.
Proof.
  intros Hseries Hi HSi Hlt.
  destruct (series_lookup _ _ _ _ _ Hseries Hi)
    as (line & Hline & dt & ct & Hdt & Hd & Hct & Hv).
  destruct (series_lookup _ _ _ _ _ Hseries HSi)
    as (line' & Hline' & dt' & ct' & Hdt' & Hd' & _).
  pose proof (strptime_valid _ _ Hd) as Hvalid.
  pose proof (strptime_valid _ _ Hd') as Hvalid'.
  assert (rank d < rank d')%Z as Hrank by (by apply ltb_rank).
  assert (Hheader : ∀ lut',
    match while_loop (span d d') (λ s, ltb s.1 d')
            (fill_step float fill (Str.split "," line) d')
            (d, price_lookup vars) with
    | Some (Ok (_, lut0)) => lut0 = lut'
    | _ => False
    end →
    lut_for_body float fill lines i vars
    = Some (Ok {| price_lookup := lut';
                  i := Some i;
                  next_line_data := Some (Str.split "," line');
                  next_date := Some d' |})).
  { intros lut' Hrun. unfold lut_for_body.
    rewrite (py_index_Some _ _ _ Hline). cbn [mbind res_bind].
    replace (i + 1) with (S i) by lia.
    rewrite (py_index_Some _ _ _ Hline'). cbn [mbind res_bind].
    rewrite (py_index_Some _ _ _ Hdt). cbn [mbind res_bind].
    rewrite Hd. cbn [mbind res_bind].
    rewrite (py_index_Some _ _ _ Hdt'). cbn [mbind res_bind].
    rewrite Hd'. cbn [mbind res_bind].
    destruct (while_loop _ _ _ _) as [[[final lut0] | e] |]; try contradiction.
    by subst lut0. }
  destruct fill.
  - destruct (fill_loop pyfloat float (Str.split "," line) ct v d' (span d d')
                Hct Hv Hvalid' d (price_lookup vars))
      as (final & lut' & Hrun & Hstep); [done | lia | unfold span; lia |].
    exists lut', line'. split; [done |]. split; [| exact Hstep].
    apply Hheader. by rewrite Hrun.
  - exists (<[strftime d := v]> (price_lookup vars)), line'.
    split; [done |]. split; [| reflexivity].
    apply Hheader.
    by rewrite (nofill_loop pyfloat float _ ct v d d' _ Hct Hv Hvalid Hvalid' Hlt).
Qed.

(** The [for] loop keeps what each of its turns keeps. *)
Lemma lut_for_invariant (fill : bool) (lines : list string)
    (entries : list (datetime * pyfloat))
    (Inv : nat → gmap string pyfloat → Prop) :
  series_of_lines float lines entries → dates_strictly_ascending entries →
  (∀ (i : nat) d v d' v' lut lut',
     entries !! i = Some (d, v) → entries !! S i = Some (d', v') →
     Inv i lut → lut_step fill d d' v lut lut' → Inv (S i) lut') →
  ∀ (n k : nat) (vars : lut_locals pyfloat),
    (k + S n < length entries)%nat → Inv k (price_lookup vars) →
    ∃ vars' d' v' line',
      lut_for float fill lines (seq k (S n)) vars = Some (Ok vars')
      ∧ Inv (k + S n) (price_lookup vars')
      ∧ entries !! (k + S n) = Some (d', v')
      ∧ lines !! (k + S n) = Some line'
      ∧ next_date vars' = Some d'
      ∧ next_line_data vars' = Some (Str.split "," line').
Proof.
  intros Hseries Hasc Hkeep.
  induction n as [|n IH]; intros k vars Hlen Hinv.
  - destruct (lookup_lt_is_Some_2 entries k) as [[d v] Hk]; [lia |].
    destruct (lookup_lt_is_Some_2 entries (S k)) as [[d' v'] HSk]; [lia |].
    destruct (lut_for_body_step fill lines entries k d v d' v' vars)
      as (lut' & line' & Hline' & Hbody & Hstep); [done | done | done | |].
    { by eapply Hasc. }
    eexists _, d', v', line'. replace (k + 1) with (S k) by lia.
    split; [| split; [| split; [| split; [| split]]]].
    + simpl. rewrite Hbody. reflexivity.
    + simpl. by eapply Hkeep.
    + done.
    + done.
    + reflexivity.
    + reflexivity.
  - destruct (lookup_lt_is_Some_2 entries k) as [[d v] Hk]; [lia |].
    destruct (lookup_lt_is_Some_2 entries (S k)) as [[d' v'] HSk]; [lia |].
    destruct (lut_for_body_step fill lines entries k d v d' v' vars)
      as (lut' & line' & Hline' & Hbody & Hstep); [done | done | done | |].
    { by eapply Hasc. }
    destruct (IH (S k) {| price_lookup := lut'; i := Some k;
                          next_line_data := Some (Str.split "," line');
                          next_date := Some d' |})
      as (vars' & dl & vl & linel & Hrun & Hinv' & Hel & Hll & Hnd & Hnl).
    { lia. }
    { simpl. by eapply Hkeep. }
    exists vars', dl, vl, linel.
    replace (k + S (S n)) with (S k + S n) by lia.
    split; [| done].
    change (seq k (S (S n))) with (k :: seq (S k) (S n)).
    cbn [lut_for]. rewrite Hbody. exact Hrun.
Qed.

Variable self : DataManager.

(** The table of a series of two rows or more: what the loop keeps,
    and the last row put in at the end. *)
Lemma build_price_lut_invariant (disk : files) (ticker : string) (fill : bool)
    (entries : list (datetime * pyfloat))
    (Inv : nat → gmap string pyfloat → Prop) :
  series_of_lines float (_readlines_for self disk ticker) entries →
  dates_strictly_ascending entries →
  (2 ≤ length entries)%nat →
  Inv 0 ∅ →
  (∀ (i : nat) d v d' v' lut lut',
     entries !! i = Some (d, v) → entries !! S i = Some (d', v') →
     Inv i lut → lut_step fill d d' v lut lut' → Inv (S i) lut') →
  ∃ lut d v,
    entries !! (length entries - 1) = Some (d, v)
    ∧ Inv (length entries - 1) lut
    ∧ build_price_lut float self disk ticker fill
      = Some (Ok (<[strftime d := v]> lut)).
Proof.
  intros Hseries Hasc Hlen Hinv0 Hkeep.
  pose proof (Forall2_length _ _ _ Hseries) as Hlines.
  destruct (lut_for_invariant fill _ entries Inv Hseries Hasc Hkeep
              (length entries - 2) 0
              {| price_lookup := ∅; i := None;
                 next_line_data := None; next_date := None |})
    as (vars' & d & v & line & Hrun & Hinv & Hentry & Hline & Hnd & Hnl).
  { lia. }
  { exact Hinv0. }
  replace (0 + S (length entries - 2)) with (length entries - 1) in * by lia.
  exists (price_lookup vars'), d, v. split; [done |]. split; [done |].
  unfold build_price_lut.
  destruct (decide (length (_readlines_for self disk ticker) = 0)); [lia |].
  destruct (decide (length (_readlines_for self disk ticker) = 1)); [lia |].
  rewrite Hlines.
  replace (length entries - 1) with (S (length entries - 2)) at 1 by lia.
  rewrite Hrun. rewrite Hnd, Hnl. cbn [local mbind res_bind].
  destruct (series_lookup _ _ _ _ _ Hseries Hentry)
    as (line0 & Hline0 & dt & ct & _ & _ & Hct & Hv).
  assert (line0 = line) as -> by congruence.
  rewrite (py_index_Some _ _ _ Hct). cbn [mbind res_bind].
  rewrite Hv. reflexivity.
Qed.

(** Without [fill], the table holds the dates of the rows. *)
Lemma nofill_insert (lines : list string) (entries : list (datetime * pyfloat))
    (i : nat) (d : datetime) (v : pyfloat) (lut : gmap string pyfloat) :
  series_of_lines float lines entries → dates_strictly_ascending entries →
  entries !! i = Some (d, v) →
  (∀ k w, lut !! k = Some w
          ↔ ∃ (j : nat) dj, (j < i)%nat ∧ entries !! j = Some (dj, w)
                            ∧ k = strftime dj) →
  ∀ k w, <[strftime d := v]> lut !! k = Some w
         ↔ ∃ (j : nat) dj, (j < S i)%nat ∧ entries !! j = Some (dj, w)
                           ∧ k = strftime dj.
Proof.
  intros Hseries Hasc Hi Hinv k w. split.
  - destruct (decide (k = strftime d)) as [-> | Hne].
    + rewrite lookup_insert_eq. intros [= <-]. exists i, d.
      split; [lia | done].
    + rewrite lookup_insert_ne by done.
      intros (j & dj & Hj & Hentry & ->)%Hinv. exists j, dj.
      split; [lia | done].
  - intros (j & dj & Hj & Hentry & ->).
    destruct (decide (j = i)) as [-> | Hne].
    + assert (dj = d ∧ w = v) as [-> ->] by (split; congruence).
      apply lookup_insert_eq.
    + rewrite lookup_insert_ne.
      * apply Hinv. exists j, dj. split; [lia | done].
      * intros Heq. apply strftime_inj in Heq;
          [| by eapply series_valid | by eapply series_valid].
        subst dj.
        pose proof (ascending_rank _ _ Hseries Hasc (i - j - 1) j d w d v Hentry)
          as Hlt.
        replace (j + S (i - j - 1)) with i in Hlt by lia.
        specialize (Hlt Hi). lia.
Qed.

Lemma build_price_lut_nofill (disk : files) (ticker : string)
    (entries : list (datetime * pyfloat)) :
  series_of_lines float (_readlines_for self disk ticker) entries →
  dates_strictly_ascending entries →
  (2 ≤ length entries)%nat →
  ∃ lut,
    build_price_lut float self disk ticker false = Some (Ok lut)
    ∧ ∀ k w, lut !! k = Some w
             ↔ ∃ (j : nat) dj, entries !! j = Some (dj, w) ∧ k = strftime dj.
Proof.
  intros Hseries Hasc Hlen.
  destruct (build_price_lut_invariant disk ticker false entries
    (λ i lut, ∀ k w, lut !! k = Some w
       ↔ ∃ (j : nat) dj, (j < i)%nat ∧ entries !! j = Some (dj, w)
                         ∧ k = strftime dj))
    as (lut & d & v & Hlast & Hinv & Hrun); try done.
  { intros k w. rewrite lookup_empty. split; [discriminate |].
    intros (j & _ & Hj & _). lia. }
  { intros i d v d' v' lut lut' Hi _ Hinv ->.
    by eapply nofill_insert. }
  eexists. split; [exact Hrun |].
  intros k w.
  rewrite (nofill_insert _ _ _ _ _ _ Hseries Hasc Hlast Hinv k w).
  split.
  - intros (j & dj & _ & Hj & ->). eauto.
  - intros (j & dj & Hj & ->). exists j, dj. split; [| done].
    apply lookup_lt_Some in Hj. lia.
Qed.

(** With [fill], the table holds every date from the first row to the
    last, each with the price of the row at or before it. *)
Lemma build_price_lut_fill (disk : files) (ticker : string)
    (entries : list (datetime * pyfloat)) :
  series_of_lines float (_readlines_for self disk ticker) entries →
  dates_strictly_ascending entries →
  (2 ≤ length entries)%nat →
  ∃ lut first_d first_v last_d last_v,
    entries !! 0 = Some (first_d, first_v)
    ∧ last entries = Some (last_d, last_v)
    ∧ build_price_lut float self disk ticker true = Some (Ok lut)
    ∧ (∀ c, valid c = true → ltb c first_d = false → ltb last_d c = false →
         is_Some (lut !! strftime c))
    ∧ (∀ k, is_Some (lut !! k) →
         ∃ c, valid c = true ∧ ltb c first_d = false ∧ ltb last_d c = false
              ∧ k = strftime c)
    ∧ (∀ (i : nat) d v c,
         entries !! i = Some (d, v) → valid c = true →
         ltb c d = false →
         (∀ d' v', entries !! S i = Some (d', v') → ltb c d' = true) →
         ltb last_d c = false →
         lut !! strftime c = Some v).
Proof.
  intros Hseries Hasc Hlen.
  destruct (lookup_lt_is_Some_2 entries 0) as [[d0 v0] H0]; [lia |].
  pose proof (series_valid _ _ _ _ _ Hseries H0) as Hvalid0.
  destruct (build_price_lut_invariant disk ticker true entries
    (λ i lut,
       (∀ (j : nat) d v d' v' c, (j < i)%nat →
          entries !! j = Some (d, v) → entries !! S j = Some (d', v') →
          valid c = true → (rank d ≤ rank c < rank d')%Z →
          lut !! strftime c = Some v)
       ∧ (∀ k, is_Some (lut !! k) →
            ∃ c di vi, valid c = true ∧ entries !! i = Some (di, vi)
                       ∧ (rank d0 ≤ rank c < rank di)%Z ∧ k = strftime c)
       ∧ (∀ c di vi, valid c = true → entries !! i = Some (di, vi) →
            (rank d0 ≤ rank c < rank di)%Z → is_Some (lut !! strftime c))))
    as (lut & dl & vl & Hlast & (P1 & P2 & P3) & Hrun); try done.
  { split; [intros; lia |]. split.
    - intros k [w Hw]. by rewrite lookup_empty in Hw.
    - intros c di vi _ Hdi Hrange. assert (di = d0) by congruence. subst. lia. }
  { intros i d v d' v' lut lut' Hi HSi (P1 & P2 & P3) [Hfill Hrest].
    pose proof (series_valid _ _ _ _ _ Hseries Hi) as Hvd.
    pose proof (ascending_rank_le _ _ 0 i _ _ _ _ Hseries Hasc
                  ltac:(lia) H0 Hi) as Hd0.
    pose proof (ascending_rank _ _ Hseries Hasc 0 i d v d' v' Hi) as Hdd'.
    replace (i + 1) with (S i) in Hdd' by lia. specialize (Hdd' HSi).
    split; [| split].
    - intros j dj vj dj' vj' c Hj Hej HeSj Hc Hrange.
      destruct (decide (j = i)) as [-> | Hne].
      + assert (dj = d ∧ vj = v ∧ dj' = d') as (-> & -> & ->)
          by (repeat split; congruence).
        by apply Hfill.
      + pose proof (ascending_rank_le _ _ (S j) i _ _ _ _ Hseries Hasc
                      ltac:(lia) HeSj Hi) as Hle.
        destruct (Hrest (strftime c)) as [-> | (c' & Hc' & Hrange' & Heq)].
        * eapply (P1 j); [lia | done | done | done | done].
        * apply strftime_inj in Heq; [| done | done]. subst c'. lia.
    - intros k Hk.
      destruct (Hrest k) as [Heq | (c & Hc & Hrange & ->)].
      + rewrite Heq in Hk. destruct (P2 k Hk) as (c & di & vi & Hc & Hdi & Hr & ->).
        assert (di = d) by congruence. subst di.
        exists c, d', v'. split; [done |]. split; [done |]. split; [lia | done].
      + exists c, d', v'. split; [done |]. split; [done |]. split; [lia | done].
    - intros c di vi Hc Hdi Hrange.
      assert (di = d') by congruence. subst di.
      destruct (decide (rank c < rank d)%Z) as [Hbefore | Hin].
      + destruct (Hrest (strftime c)) as [-> | (c' & Hc' & Hrange' & Heq)].
        * eapply P3; [done | done | lia].
        * rewrite Heq. rewrite Hfill by done. eauto.
      + rewrite Hfill; [eauto | done | lia]. }
  assert (last entries = Some (dl, vl)) as Hlast'.
  { rewrite last_lookup. replace (pred (length entries)) with (length entries - 1)
      by lia. exact Hlast. }
  pose proof (series_valid _ _ _ _ _ Hseries Hlast) as Hvalidl.
  pose proof (ascending_rank_le _ _ 0 (length entries - 1) _ _ _ _ Hseries Hasc
                ltac:(lia) H0 Hlast) as H0l.
  exists (<[strftime dl := vl]> lut), d0, v0, dl, vl.
  split; [done |]. split; [done |]. split; [done |].
  split; [| split].
  - intros c Hc Hlow%ltb_rank_false Hhigh%ltb_rank_false; try done.
    destruct (decide (rank c < rank dl)%Z) as [Hlt | Hge].
    + apply lookup_insert_is_Some'. right. eapply P3; [done | done | lia].
    + assert (c = dl) as -> by (apply rank_inj; [done | done | lia]).
      rewrite lookup_insert_eq. eauto.
  - intros k Hk. apply lookup_insert_is_Some' in Hk as [<- | Hk].
    + exists dl. split; [done |].
      split; [apply ltb_rank_false; [done | done | lia] |].
      split; [apply ltb_rank_false; [done | done | lia] | done].
    + destruct (P2 k Hk) as (c & di & vi & Hc & Hdi & Hr & ->).
      assert (di = dl) by congruence. subst di.
      exists c. split; [done |].
      split; [apply ltb_rank_false; [done | done | lia] |].
      split; [apply ltb_rank_false; [done | done | lia] | done].
  - intros i d v c Hi Hc Hlow%ltb_rank_false Hnext Hhigh%ltb_rank_false;
      try done; [| by eapply series_valid].
    destruct (decide (S i < length entries)%nat) as [Hmore | Hend].
    + destruct (lookup_lt_is_Some_2 entries (S i)) as [[d' v'] HSi]; [lia |].
      pose proof (series_valid _ _ _ _ _ Hseries HSi) as Hvd'.
      pose proof (Hnext d' v' HSi) as Hlt. apply ltb_rank in Hlt; [| done | done].
      pose proof (ascending_rank_le _ _ (S i) (length entries - 1) _ _ _ _
                    Hseries Hasc ltac:(lia) HSi Hlast) as Hle.
      rewrite lookup_insert_ne.
      * eapply (P1 i); [lia | done | done | done | lia].
      * intros Heq. apply strftime_inj in Heq; [| done | done]. subst c. lia.
    + apply lookup_lt_Some in Hi as Hi'.
      assert (i = length entries - 1) as -> by lia.
      assert (d = dl ∧ v = vl) as [-> ->] by (split; congruence).
      assert (c = dl) as -> by (apply rank_inj; [done | done | lia]).
      apply lookup_insert_eq.
Qed.

(** One turn of the [for] loop, from the outcome of its [while] loop. *)
Lemma lut_for_body_run (fill : bool) (lines : list string) (i : nat)
    (line line' dt dt' : string) (d d' final : datetime)
    (vars : lut_locals pyfloat) (lut' : gmap string pyfloat) :
  lines !! i = Some line → lines !! S i = Some line' →
  Str.split "," line !! 0 = Some dt → strptime dt = Ok d →
  Str.split "," line' !! 0 = Some dt' → strptime dt' = Ok d' →
  while_loop (span d d') (λ s, ltb s.1 d')
    (fill_step float fill (Str.split "," line) d') (d, price_lookup vars)
  = Some (Ok (final, lut')) →
  lut_for_body float fill lines i vars
  = Some (Ok {| price_lookup := lut';
                i := Some i;
                next_line_data := Some (Str.split "," line');
                next_date := Some d' |}).
Proof.
  intros Hline Hline' Hdt Hd Hdt' Hd' Hrun. unfold lut_for_body.
  rewrite (py_index_Some _ _ _ Hline). cbn [mbind res_bind].
  replace (i + 1) with (S i) by lia.
  rewrite (py_index_Some _ _ _ Hline'). cbn [mbind res_bind].
  rewrite (py_index_Some _ _ _ Hdt). cbn [mbind res_bind].
  rewrite Hd. cbn [mbind res_bind].
  rewrite (py_index_Some _ _ _ Hdt'). cbn [mbind res_bind].
  rewrite Hd'. cbn [mbind res_bind].
  by rewrite Hrun.
Qed.

(** One turn of the [while] loop with [fill]. *)
Lemma fill_step_next_day (fields : list string) (close_text : string)
    (v : pyfloat) (next_d curr curr' : datetime) (lut : gmap string pyfloat) :
  fields !! 4 = Some close_text → float close_text = Ok v →
  add_day curr = Ok curr' →
  fill_step float true fields next_d (curr, lut)
  = Ok (curr', <[strftime curr := v]> lut).
Proof.
  intros Hclose Hfloat Hadd. unfold fill_step.
  rewrite (py_index_Some _ _ _ Hclose). cbn [mbind res_bind].
  rewrite Hfloat. cbn [mbind res_bind]. rewrite Hadd. reflexivity.
Qed.

End TableFacts.

(** ** A series with a weekend between its two rows *)

Lemma weekend_lines :
  _readlines_for sample_manager weekend_disk "acme"
  = ["2024-01-05,9,11,8,10,500"; "2024-01-08,19,21,18,20,700"].
Proof. vm_compute. reflexivity. Qed.

Lemma weekend_fill {pyfloat} (float : string → res pyfloat) (v10 v20 : pyfloat) :
  float "10" = Ok v10 → float "20" = Ok v20 →
  build_price_lut float sample_manager weekend_disk "acme" true
  = Some (Ok {[ "2024-01-05" := v10; "2024-01-06" := v10;
                "2024-01-07" := v10; "2024-01-08" := v20 ]}).
Proof.
  intros H10 H20. unfold build_price_lut. rewrite weekend_lines.
  destruct (decide _) as [Hlen | _]; [discriminate Hlen |].
  destruct (decide _) as [Hlen | _]; [discriminate Hlen |].
  change (seq 0 _) with [0]. cbn [lut_for].
  pose (d5 := {| Datetime.year := 2024; Datetime.month := 1; Datetime.day := 5 |}).
  pose (d6 := {| Datetime.year := 2024; Datetime.month := 1; Datetime.day := 6 |}).
  pose (d7 := {| Datetime.year := 2024; Datetime.month := 1; Datetime.day := 7 |}).
  pose (d8 := {| Datetime.year := 2024; Datetime.month := 1; Datetime.day := 8 |}).
  rewrite (lut_for_body_run pyfloat float true _ 0
             "2024-01-05,9,11,8,10,500" "2024-01-08,19,21,18,20,700"
             "2024-01-05" "2024-01-08" d5 d8 d8 _
             {[ "2024-01-05" := v10; "2024-01-06" := v10; "2024-01-07" := v10 ]});
    try reflexivity.
  - cbn [local price_lookup next_date next_line_data mbind res_bind].
    change (py_index _ 4) with (Ok (A := string) "20").
    cbn [mbind res_bind]. rewrite H20. cbn [mbind res_bind].
    reflexivity.
  - change (Datetime.span d5 d8) with 3.
    erewrite (while_loop_turn _ _ _ _ (d6, _));
      [| reflexivity
       | by apply (fill_step_next_day pyfloat float _ "10" v10)].
    erewrite (while_loop_turn _ _ _ _ (d7, _));
      [| reflexivity
       | by apply (fill_step_next_day pyfloat float _ "10" v10)].
    erewrite (while_loop_turn _ _ _ _ (d8, _));
      [| reflexivity
       | by apply (fill_step_next_day pyfloat float _ "10" v10)].
    rewrite while_loop_done by reflexivity.
    reflexivity.
Qed.

Lemma weekend_no_fill {pyfloat} (float : string → res pyfloat)
    (v10 v20 : pyfloat) :
  float "10" = Ok v10 → float "20" = Ok v20 →
  build_price_lut float sample_manager weekend_disk "acme" false
  = Some (Ok {[ "2024-01-05" := v10; "2024-01-08" := v20 ]}).
Proof.
  intros H10 H20. unfold build_price_lut. rewrite weekend_lines.
  destruct (decide _) as [Hlen | _]; [discriminate Hlen |].
  destruct (decide _) as [Hlen | _]; [discriminate Hlen |].
  change (seq 0 _) with [0]. cbn [lut_for].
  pose (d5 := {| Datetime.year := 2024; Datetime.month := 1; Datetime.day := 5 |}).
  pose (d8 := {| Datetime.year := 2024; Datetime.month := 1; Datetime.day := 8 |}).
  rewrite (lut_for_body_run pyfloat float false _ 0
             "2024-01-05,9,11,8,10,500" "2024-01-08,19,21,18,20,700"
             "2024-01-05" "2024-01-08" d5 d8 d8 _
             {[ "2024-01-05" := v10 ]});
    try reflexivity.
  - cbn [local price_lookup next_date next_line_data mbind res_bind].
    change (py_index _ 4) with (Ok (A := string) "20").
    cbn [mbind res_bind]. rewrite H20. cbn [mbind res_bind].
    reflexivity.
  - by rewrite (nofill_loop pyfloat float _ "10" v10 d5 d8).
Qed.

(** ** The price look-up table of a series *)

(** C3: the code does not build the table of a series of one row.  On
    a file of exactly one line [build_price_lut] reads [file_content[i]]
    before the [for] loop has assigned [i]: it raises
    [UnboundLocalError], with [fill] and without, whatever the row
    holds. *)
Theorem C3_single_row_raises {pyfloat} (float : string → res pyfloat)
    (self : DataManager) (disk : files) (ticker : string) (fill : bool) :
  length (_readlines_for self disk ticker) = 1 →
  build_price_lut float self disk ticker fill = Some (Raise UnboundLocalError).
Proof.
  intros Hlen. unfold build_price_lut.
  destruct (decide _) as [Hzero | _]; [rewrite Hlen in Hzero; discriminate |].
  destruct (decide _) as [_ | Hone]; [reflexivity | contradiction].
Qed.

Lemma C3_single_row_raises_witness :
  length (_readlines_for sample_manager single_row_disk "acme") = 1
  ∧ build_price_lut Decimal.float sample_manager single_row_disk "acme" true
    = Some (Raise UnboundLocalError)
  ∧ build_price_lut Decimal.float sample_manager single_row_disk "acme" false
    = Some (Raise UnboundLocalError).
Proof.
  assert (Hlen : length (_readlines_for sample_manager single_row_disk "acme") = 1)
    by (vm_compute; reflexivity).
  split; [exact Hlen |]. split.
  - apply (C3_single_row_raises Decimal.float sample_manager single_row_disk
             "acme" true Hlen).
  - apply (C3_single_row_raises Decimal.float sample_manager single_row_disk
             "acme" false Hlen).
Defined.

(** C4: for a stored series of two rows or more whose dates ascend
    strictly, [build_price_lut] ends and returns a table.  With [fill],
    the keys of the table are the calendar dates from the date of the
    first row to the date of the last row, all of them, and a date maps
    to the closing price of the row at that date or, failing one, of the
    last row before it.  Without [fill], the keys are the dates of the
    rows and each maps to the closing price of its row.  The rows
    2024-01-05 (close 10) and 2024-01-08 (close 20) give the four entries
    01-05 = 10, 01-06 = 10, 01-07 = 10, 01-08 = 20 with [fill] and the
    two entries 01-05 = 10, 01-08 = 20 without. *)
Theorem C4_price_lut_multi_row {pyfloat} (float : string → res pyfloat)
    (self : DataManager) (disk : files) (ticker : string)
    (entries : list (Datetime.datetime * pyfloat)) :
  series_of_lines float (_readlines_for self disk ticker) entries →
  dates_strictly_ascending entries →
  (2 ≤ length entries)%nat →
  (∃ lut first_d first_v last_d last_v,
     entries !! 0 = Some (first_d, first_v)
     ∧ last entries = Some (last_d, last_v)
     ∧ build_price_lut float self disk ticker true = Some (Ok lut)
     ∧ (∀ c, Datetime.valid c = true →
          Datetime.ltb c first_d = false → Datetime.ltb last_d c = false →
          is_Some (lut !! Datetime.strftime c))
     ∧ (∀ k, is_Some (lut !! k) →
          ∃ c, Datetime.valid c = true
               ∧ Datetime.ltb c first_d = false
               ∧ Datetime.ltb last_d c = false
               ∧ k = Datetime.strftime c)
     ∧ (∀ (i : nat) d v c,
          entries !! i = Some (d, v) → Datetime.valid c = true →
          Datetime.ltb c d = false →
          (∀ d' v', entries !! S i = Some (d', v') → Datetime.ltb c d' = true) →
          Datetime.ltb last_d c = false →
          lut !! Datetime.strftime c = Some v))
  ∧ (∃ lut,
       build_price_lut float self disk ticker false = Some (Ok lut)
       ∧ ∀ k w, lut !! k = Some w
                ↔ ∃ (j : nat) dj,
                    entries !! j = Some (dj, w) ∧ k = Datetime.strftime dj)
  ∧ (∀ v10 v20 : pyfloat,
       float "10" = Ok v10 → float "20" = Ok v20 →
       build_price_lut float sample_manager weekend_disk "acme" true
       = Some (Ok {[ "2024-01-05" := v10; "2024-01-06" := v10;
                     "2024-01-07" := v10; "2024-01-08" := v20 ]})
       ∧ build_price_lut float sample_manager weekend_disk "acme" false
         = Some (Ok {[ "2024-01-05" := v10; "2024-01-08" := v20 ]})).
Proof.
  intros Hseries Hasc Hlen. split; [| split].
  - by apply build_price_lut_fill.
  - by apply build_price_lut_nofill.
  - intros v10 v20 H10 H20. split.
    + by apply weekend_fill.
    + by apply weekend_no_fill.
Qed.

Lemma C4_price_lut_multi_row_witness :
  series_of_lines Decimal.float
    (_readlines_for sample_manager weekend_disk "acme") weekend_entries
  ∧ dates_strictly_ascending weekend_entries
  ∧ (2 ≤ length weekend_entries)%nat
  ∧ Decimal.float "10" = Ok {| Decimal.mantissa := 10; Decimal.scale := 0 |}
  ∧ Decimal.float "20" = Ok {| Decimal.mantissa := 20; Decimal.scale := 0 |}
  ∧ ∃ lut_fill lut_rows : gmap string Decimal.decimal,
      build_price_lut Decimal.float sample_manager weekend_disk "acme" true
      = Some (Ok lut_fill)
      ∧ lut_fill !! "2024-01-06"
        = Some {| Decimal.mantissa := 10; Decimal.scale := 0 |}
      ∧ build_price_lut Decimal.float sample_manager weekend_disk "acme" false
        = Some (Ok lut_rows)
      ∧ lut_rows !! "2024-01-06" = None.
Proof.
  assert (Hseries : series_of_lines Decimal.float
    (_readlines_for sample_manager weekend_disk "acme") weekend_entries).
  { rewrite weekend_lines. repeat constructor.
    - exists "2024-01-05", "10". repeat split; reflexivity.
    - exists "2024-01-08", "20". repeat split; reflexivity. }
  assert (Hasc : dates_strictly_ascending weekend_entries).
  { intros [|[|i]] d v d' v' Hi HSi; simplify_eq/=. reflexivity. }
  assert (Hlen : (2 ≤ length weekend_entries)%nat) by (simpl; lia).
  split; [exact Hseries |]. split; [exact Hasc |]. split; [exact Hlen |].
  split; [reflexivity |]. split; [reflexivity |].
  destruct (C4_price_lut_multi_row Decimal.float sample_manager weekend_disk
              "acme" weekend_entries Hseries Hasc Hlen)
    as (_ & _ & Hexample).
  destruct (Hexample _ _ eq_refl eq_refl) as [Hfill Hrows].
  eexists _, _. split; [exact Hfill |]. split; [reflexivity |].
  split; [exact Hrows | reflexivity].
Defined.

(** * Further properties *)

(** ** What a write leaves on disk *)

Lemma csv_text_app (d1 d2 : list row) :
  csv_text (d1 ++ d2) = csv_text d1 +:+ csv_text d2.
Proof.
  induction d1 as [|r d1 IH]; simpl; [by rewrite str_app_nil_l |].
  by rewrite IH, !str_app_assoc.
Qed.

Lemma universal_newlines_nil (s : string) :
  TextFile.universal_newlines s = "" → s = "".
Proof.
  destruct s as [|c s]; [done |]. simpl.
  destruct (decide (c = TextFile.CR)); [| discriminate].
  destruct s as [|c' s]; [discriminate |].
  destruct (decide (c' = TextFile.LF)); discriminate.
Qed.

Lemma lines_keepends_nil (s : string) :
  TextFile.lines_keepends s = [] → s = "".
Proof.
  destruct s as [|c s]; [done |]. simpl.
  destruct (decide (c = TextFile.LF)); [discriminate |].
  destruct (TextFile.lines_keepends s); discriminate.
Qed.

Section WriteFacts.

Variable self : DataManager.

(** A series without rows is a missing file or an empty one. *)
Lemma read_rows_nil (disk : files) (ticker : string) :
  _read_csv_file_rows_for self disk ticker = [] →
  default "" (disk !! _filename_for self ticker) = "".
Proof.
  rewrite read_rows_fmap. intros Hnil%fmap_nil_inv.
  unfold _readlines_for, _has_file_for in Hnil.
  case_bool_decide as Hfile.
  - apply fmap_nil_inv in Hnil.
    by apply universal_newlines_nil, lines_keepends_nil.
  - destruct (disk !! _filename_for self ticker); [| done].
    exfalso. apply Hfile. eauto.
Qed.

Lemma write_overwrite_disk (disk : files) (ticker : string) (data : list row) :
  write_stock_data self disk ticker data false
  = (Ok (), <[_filename_for self ticker := csv_text data]> disk).
Proof.
  unfold write_stock_data, data_to_write. rewrite write_csv_truncate.
  unfold _has_file_for, _remove_file_for.
  case_bool_decide; [by rewrite insert_delete_eq | done].
Qed.

(** The files [data_to_write] hands on differ from the files on disk
    by the file of the ticker at most. *)
Lemma data_to_write_disk (disk disk' : files) (ticker : string)
    (data rows : list row) (append : bool) (mode : open_mode) :
  data_to_write self disk ticker data append = Ok (rows, mode, disk') →
  disk' = disk ∨ disk' = delete (_filename_for self ticker) disk.
Proof.
  unfold data_to_write. destruct append.
  - rewrite read_row_format. cbn [mbind res_bind].
    destruct (decide _); [intros ?; simplify_eq; by left |].
    destruct (py_last (_read_csv_file_rows_for self disk ticker)) as [el|]; [| by cbn [mbind res_bind]]. cbn [mbind res_bind].
    destruct (py_index el 0) as [eld|]; [| by cbn [mbind res_bind]]. cbn [mbind res_bind].
    destruct (py_last data) as [dl|]; [| by cbn [mbind res_bind]]. cbn [mbind res_bind].
    destruct (py_index dl 0) as [dld|]; [| by cbn [mbind res_bind]]. cbn [mbind res_bind].
    destruct (_ <? _)%string; [| intros ?; simplify_eq; by left].
    destruct (py_index data 0) as [df|]; [| by cbn [mbind res_bind]]. cbn [mbind res_bind].
    destruct (py_index df 0) as [dfd|]; [| by cbn [mbind res_bind]]. cbn [mbind res_bind].
    destruct (_ <? _)%string; [| intros ?; simplify_eq; by left].
    destruct (next_index_of _ _ _); [| by cbn [mbind res_bind]]. cbn [mbind res_bind].
    intros ?; simplify_eq; by left.
  - unfold _has_file_for, _remove_file_for.
    case_bool_decide; intros ?; simplify_eq; [by right | by left].
Qed.

End WriteFacts.


(** X2: a write with [append=true] for a ticker without stored rows (no
    file, or an empty one) writes all the incoming rows, none of them
    examined: the file then holds exactly these rows. *)
Theorem X2_append_to_empty_series (self : DataManager) (disk : files)
    (ticker : string) (data : list row) :
  _read_csv_file_rows_for self disk ticker = [] →
  write_stock_data self disk ticker data true
  = (Ok (), <[_filename_for self ticker := csv_text data]> disk).
Proof.
  intros Hnil. unfold write_stock_data, data_to_write.
  rewrite read_row_format. cbn [mbind res_bind]. rewrite Hnil.
  destruct (decide _) as [_ | Hlen]; [| done].
  rewrite write_csv_append, (read_rows_nil _ _ _ Hnil).
  by rewrite str_app_nil_l.
Qed.

Lemma X2_append_to_empty_series_witness :
  _read_csv_file_rows_for sample_manager sample_disk "new" = []
  ∧ write_stock_data sample_manager sample_disk "new" sample_incoming true
    = (Ok (), <[_filename_for sample_manager "new" := csv_text sample_incoming]>
                sample_disk).
Proof.
  assert (Hnil : _read_csv_file_rows_for sample_manager sample_disk "new" = [])
    by (vm_compute; reflexivity).
  split; [exact Hnil |].
  apply (X2_append_to_empty_series sample_manager sample_disk "new"
           sample_incoming Hnil).
Defined.

(** X3: a write, appending or not, succeeding or not, changes no file
    but the one of its ticker. *)
Theorem X3_write_leaves_other_files (self : DataManager) (disk : files)
    (ticker : string) (data : list row) (append : bool) (filename : string) :
  filename ≠ _filename_for self ticker →
  (write_stock_data self disk ticker data append).2 !! filename
  = disk !! filename.
Proof.
  intros Hne. unfold write_stock_data.
  destruct (data_to_write _ _ _ _ _) as [[[rows mode] disk']|e] eqn:Hsel;
    [| reflexivity].
  simpl. unfold _write_data_to_csv_file.
  rewrite lookup_insert_ne by done.
  destruct (data_to_write_disk _ _ _ _ _ _ _ _ Hsel) as [-> | ->]; [done |].
  by rewrite lookup_delete_ne.
Qed.

Lemma X3_write_leaves_other_files_witness :
  "strategies/basic" ≠ _filename_for sample_manager "acme"
  ∧ (write_stock_data sample_manager sample_disk "acme" sample_incoming true).2
      !! "strategies/basic"
    = sample_disk !! "strategies/basic".
Proof.
  assert (Hne : "strategies/basic" ≠ _filename_for sample_manager "acme")
    by (vm_compute; discriminate).
  split; [exact Hne |].
  apply (X3_write_leaves_other_files sample_manager sample_disk "acme"
           sample_incoming true "strategies/basic" Hne).
Defined.

(** X4: a write that succeeds leaves a file for the ticker, also when
    it wrote no row. *)
Theorem X4_write_creates_file (self : DataManager) (disk disk' : files)
    (ticker : string) (data : list row) (append : bool) :
  write_stock_data self disk ticker data append = (Ok (), disk') →
  _has_file_for self disk' ticker = true.
Proof.
  unfold write_stock_data, _has_file_for.
  destruct (data_to_write _ _ _ _ _) as [[[rows mode] disk0]|e];
    [| discriminate].
  intros [= <-]. apply bool_decide_eq_true_2.
  unfold _write_data_to_csv_file. rewrite lookup_insert_eq. eauto.
Qed.

Lemma X4_write_creates_file_witness :
  write_stock_data sample_manager ∅ "acme" [] true
  = (Ok (), {[ "data/ACME.csv" := "" ]})
  ∧ _has_file_for sample_manager {[ "data/ACME.csv" := "" ]} "acme" = true.
Proof.
  assert (Hwrite : write_stock_data sample_manager ∅ "acme" [] true
                   = (Ok (), {[ "data/ACME.csv" := "" ]}))
    by (vm_compute; reflexivity).
  split; [exact Hwrite |].
  apply (X4_write_creates_file sample_manager ∅ _ "acme" [] true Hwrite).
Defined.

(** X5: writing rows to a file and then appending more rows to it
    leaves what writing all of them at once leaves. *)
Theorem X5_append_after_write (disk : files) (filename : string)
    (data more : list row) (mode : open_mode) :
  _write_data_to_csv_file
    (_write_data_to_csv_file disk filename data mode) filename more mode_a
  = _write_data_to_csv_file disk filename (data ++ more) mode.
Proof.
  rewrite write_csv_append. destruct mode.
  - rewrite !write_csv_truncate, lookup_insert_eq, insert_insert_eq.
    simpl. by rewrite csv_text_app.
  - rewrite !write_csv_append, lookup_insert_eq, insert_insert_eq.
    simpl. by rewrite csv_text_app, str_app_assoc.
Qed.

(** ** Writing, appending and reading back *)

(** A file that holds the text of clean rows reads as these rows. *)
Lemma read_rows_csv_text (self : DataManager) (disk : files) (ticker : string)
    (data : list row) :
  disk !! _filename_for self ticker = Some (csv_text data) →
  Forall (λ r, length r = 6 ∧ Forall clean_field r) data →
  _read_csv_file_rows_for self disk ticker = data.
Proof.
  intros Hfile Hdata. rewrite read_rows_fmap.
  rewrite (readlines_for_content _ _ _ _ Hfile), <- list_fmap_compose.
  rewrite iter_lines_csv_text.
  - rewrite <- list_fmap_compose. clear Hfile.
    induction Hdata as [|r data [Hlen Hclean] _ IH]; [reflexivity |].
    rewrite fmap_cons, IH. f_equal. exact (read_back_row r Hlen Hclean).
  - eapply Forall_impl; [exact Hdata |]. intros r [_ Hclean].
    eapply Forall_impl; [exact Hclean |]. by intros f (_ & ? & _).
  - eapply Forall_impl; [exact Hdata |]. intros r [_ Hclean].
    eapply Forall_impl; [exact Hclean |]. by intros f (_ & _ & ? & _).
Qed.

(** X17: a series is written, and then a feed is appended whose rows
    overlap it: the last date [L] written lies strictly between the
    first and the last date of the feed, and the feed has a row dated
    [L].  Both writes succeed, and the series then reads as the rows
    written first followed by the rows of the feed after its first row
    dated [L]. *)
Theorem X17_write_append_read (self : DataManager) (disk : files)
    (ticker : string) (stored feed : list row) (L first_d last_d : string) :
  Forall (λ r, length r = 6 ∧ Forall clean_field r) stored →
  Forall (λ r, length r = 6 ∧ Forall clean_field r) feed →
  last_date stored = Some L →
  first_date feed = Some first_d →
  last_date feed = Some last_d →
  (first_d <? L)%string = true →
  (L <? last_d)%string = true →
  (∃ r, r ∈ feed ∧ date_of r = Some L) →
  ∃ (i : nat) (r : row) (disk1 disk2 : files),
    feed !! i = Some r ∧ date_of r = Some L
    ∧ (∀ (j : nat) r', j < i → feed !! j = Some r' → date_of r' ≠ Some L)
    ∧ write_stock_data self disk ticker stored false = (Ok (), disk1)
    ∧ write_stock_data self disk1 ticker feed true = (Ok (), disk2)
    ∧ read_stock_data self disk2 ticker "row" = Ok (stored ++ drop (S i) feed).
Proof.
  intros Hstored Hfeed HL Hfirst Hlast Hlow Hhigh Hin.
  set (disk1 := <[_filename_for self ticker := csv_text stored]> disk).
  assert (Hfile1 : disk1 !! _filename_for self ticker = Some (csv_text stored))
    by apply lookup_insert_eq.
  pose proof (read_rows_csv_text self disk1 ticker stored Hfile1 Hstored)
    as Hread1.
  destruct (append_after_last_date self disk1 ticker feed L first_d last_d)
    as (i & r & Hi & Hr & Hbefore & Hsel); try done.
  { by rewrite Hread1. }
  { eapply Forall_impl; [exact Hfeed |]. by intros r' [? _]. }
  exists i, r, disk1,
    (<[_filename_for self ticker := csv_text (stored ++ drop (S i) feed)]> disk1).
  split; [done |]. split; [done |]. split; [done |].
  split; [apply write_overwrite_disk |]. split.
  - rewrite (write_stock_data_selected _ _ _ _ _ _ _ Hsel).
    by rewrite write_csv_append, Hfile1, csv_text_app.
  - rewrite read_row_format. f_equal. apply read_rows_csv_text.
    + apply lookup_insert_eq.
    + apply Forall_app. split; [exact Hstored | by apply Forall_drop].
Qed.

Lemma X17_write_append_read_witness :
  ∃ (i : nat) (r : row) (disk1 disk2 : files),
    sample_incoming !! i = Some r ∧ date_of r = Some "2024-01-02"
    ∧ (∀ (j : nat) r', j < i → sample_incoming !! j = Some r' →
         date_of r' ≠ Some "2024-01-02")
    ∧ write_stock_data sample_manager ∅ "acme" (take 2 sample_incoming) false
      = (Ok (), disk1)
    ∧ write_stock_data sample_manager disk1 "acme" sample_incoming true
      = (Ok (), disk2)
    ∧ read_stock_data sample_manager disk2 "acme" "row"
      = Ok (take 2 sample_incoming ++ drop (S i) sample_incoming).
Proof.
  assert (Hclean :
    Forall (λ r, length r = 6 ∧ Forall clean_field r) sample_incoming).
  { unfold sample_incoming, clean_field. repeat constructor. }
  apply (X17_write_append_read sample_manager ∅ "acme"
           (take 2 sample_incoming) sample_incoming
           "2024-01-02" "2024-01-01" "2024-01-03").
  - by apply Forall_take.
  - exact Hclean.
  - reflexivity.
  - reflexivity.
  - reflexivity.
  - reflexivity.
  - reflexivity.
  - exists ["2024-01-02"; "1"; "3"; "1"; "2"; "150"]. split; [| reflexivity].
    apply list_elem_of_further, list_elem_of_here.
Defined.

(** ** Reading a series by columns *)

Section ColumnFacts.

Variable self : DataManager.

Lemma columns_of_snoc (rows : list row) (r : row) :
  columns_of (rows ++ [r])
  = zip_with (λ col f, col ++ [f]) (columns_of rows)
      ((λ j, default "" (r !! j)) <$> seq 0 6).
Proof. unfold columns_of. simpl. by rewrite !fmap_app. Qed.

(** The inner loop, on a line with six fields or more. *)
Lemma column_turn_ok (rows : list row) (values : list string) :
  (6 ≤ length values)%nat →
  foldl
    (λ acc i,
       data ← acc;
       v ← py_index values i;
       col ← py_index data i;
       Ok (<[i := col ++ [Str.strip v]]> data))
    (Ok (columns_of rows)) (seq 0 6)
  = Ok (columns_of (rows ++ [Str.strip <$> values])).
Proof.
  intros Hlen.
  destruct values as [|v0 [|v1 [|v2 [|v3 [|v4 [|v5 rest]]]]]];
    simpl in Hlen; try lia.
  rewrite columns_of_snoc. reflexivity.
Qed.

(** The inner loop, on a line with fewer fields. *)
Lemma column_turn_short (rows : list row) (values : list string) :
  (length values < 6)%nat →
  foldl
    (λ acc i,
       data ← acc;
       v ← py_index values i;
       col ← py_index data i;
       Ok (<[i := col ++ [Str.strip v]]> data))
    (Ok (columns_of rows)) (seq 0 6)
  = Raise IndexError.
Proof.
  intros Hlen.
  destruct values as [|v0 [|v1 [|v2 [|v3 [|v4 [|v5 rest]]]]]];
    simpl in Hlen; try lia; reflexivity.
Qed.

Lemma columns_fold (lines : list string) (rows : list row) :
  foldl
    (λ acc line,
       data ← acc;
       let values := Str.split "," line in
       foldl
         (λ acc i,
            data ← acc;
            v ← py_index values i;
            col ← py_index data i;
            Ok (<[i := col ++ [Str.strip v]]> data))
         (Ok data) (seq 0 6))
    (Ok (columns_of rows)) lines
  = if forallb (λ line, (6 <=? length (Str.split "," line))%nat) lines
    then Ok (columns_of
               (rows ++ ((λ line, Str.strip <$> Str.split "," line) <$> lines)))
    else Raise IndexError.
Proof.
  revert rows. induction lines as [|line lines IH]; intros rows.
  - simpl. by rewrite app_nil_r.
  - cbn [foldl forallb fmap list_fmap]. cbn [mbind res_bind].
    destruct (6 <=? length (Str.split "," line))%nat eqn:Hlen.
    + apply Nat.leb_le in Hlen. rewrite (column_turn_ok rows _ Hlen).
      rewrite IH, <- app_assoc. reflexivity.
    + apply Nat.leb_gt in Hlen. rewrite (column_turn_short rows _ Hlen).
      clear. simpl. induction lines as [|l lines IH]; [reflexivity | exact IH].
Qed.

Lemma read_columns (disk : files) (ticker : string) :
  read_stock_data self disk ticker "column"
  = if forallb (λ line, (6 <=? length (Str.split "," line))%nat)
         (_readlines_for self disk ticker)
    then Ok (columns_of (_read_csv_file_rows_for self disk ticker))
    else Raise IndexError.
Proof.
  unfold read_stock_data. destruct (decide _) as [_ | Hne]; [| done].
  unfold _read_csv_file_columns_for.
  change (fold_left _ (seq 0 6) []) with (columns_of []).
  rewrite columns_fold, read_rows_fmap. reflexivity.
Qed.

End ColumnFacts.

(** X6: when every line of the file has six fields or more, reading in
    column format gives six columns, as long as the series read in row
    format, and field [k] of column [j] is field [j] of row [k]: fields
    past the sixth are left out. *)
Theorem X6_columns_transpose_rows (self : DataManager) (disk : files)
    (ticker : string) :
  Forall (λ line, (6 ≤ length (Str.split "," line))%nat)
    (_readlines_for self disk ticker) →
  ∃ cols rows,
    read_stock_data self disk ticker "column" = Ok cols
    ∧ read_stock_data self disk ticker "row" = Ok rows
    ∧ length cols = 6
    ∧ ∀ (j : nat) col, cols !! j = Some col →
        length col = length rows
        ∧ ∀ (k : nat) r, rows !! k = Some r → col !! k = r !! j.
Proof.
  intros Hlines.
  exists (columns_of (_read_csv_file_rows_for self disk ticker)),
         (_read_csv_file_rows_for self disk ticker).
  split; [| split; [reflexivity | split; [reflexivity |]]].
  - rewrite read_columns.
    assert (forallb (λ line, (6 <=? length (Str.split "," line))%nat)
              (_readlines_for self disk ticker) = true) as ->; [| reflexivity].
    apply Is_true_true, forallb_True.
    eapply Forall_impl; [exact Hlines |]. intros line Hlen. simpl in Hlen.
    apply Is_true_true, Nat.leb_le, Hlen.
  - intros j col Hcol. unfold columns_of in Hcol.
    rewrite list_lookup_fmap in Hcol.
    destruct (seq 0 6 !! j) as [j'|] eqn:Hj; [| discriminate].
    apply lookup_seq in Hj as [-> Hj]. simpl in Hcol.
    injection Hcol as <-. split; [by rewrite length_fmap |].
    intros k r Hr. rewrite list_lookup_fmap, Hr. simpl.
    rewrite read_rows_fmap, list_lookup_fmap in Hr.
    destruct (_readlines_for self disk ticker !! k) as [line|] eqn:Hline;
      [| discriminate].
    injection Hr as <-.
    pose proof (Forall_lookup_1 _ _ _ _ Hlines Hline) as Hlen. simpl in Hlen.
    destruct (lookup_lt_is_Some_2 (Str.strip <$> Str.split "," line) j)
      as [f Hf]; [rewrite length_fmap; lia |].
    by rewrite Hf.
Qed.

Lemma X6_columns_transpose_rows_witness :
  Forall (λ line, (6 ≤ length (Str.split "," line))%nat)
    (_readlines_for sample_manager sample_disk "acme")
  ∧ ∃ cols rows,
      read_stock_data sample_manager sample_disk "acme" "column" = Ok cols
      ∧ read_stock_data sample_manager sample_disk "acme" "row" = Ok rows
      ∧ length cols = 6
      ∧ ∀ (j : nat) col, cols !! j = Some col →
          length col = length rows
          ∧ ∀ (k : nat) r, rows !! k = Some r → col !! k = r !! j.
Proof.
  assert (Hlines : Forall (λ line, (6 ≤ length (Str.split "," line))%nat)
                     (_readlines_for sample_manager sample_disk "acme")).
  { apply Forall_forall. intros line Hin.
    vm_compute in Hin. repeat (apply elem_of_cons in Hin as [-> | Hin]);
      [vm_compute; lia .. | by apply elem_of_nil in Hin]. }
  split; [exact Hlines |].
  apply (X6_columns_transpose_rows sample_manager sample_disk "acme" Hlines).
Defined.

(** X7: reading in column format raises [IndexError] exactly when some
    line of the file has fewer than six fields (a blank line is one);
    no other error is raised. *)
Theorem X7_columns_short_line (self : DataManager) (disk : files)
    (ticker : string) :
  (read_stock_data self disk ticker "column" = Raise IndexError
   ↔ Exists (λ line, (length (Str.split "," line) < 6)%nat)
       (_readlines_for self disk ticker))
  ∧ (∀ e, read_stock_data self disk ticker "column" = Raise e → e = IndexError).
Proof.
  rewrite read_columns.
  destruct (forallb _ _) eqn:Hall.
  - split; [split; [discriminate |] | discriminate].
    intros Hex. apply Exists_exists in Hex as (line & Hin & Hlen).
    apply Is_true_true, forallb_True in Hall.
    apply (proj1 (Forall_forall _ _)) with (x := line) in Hall; [| done].
    cbv beta in Hall. apply Is_true_true, Nat.leb_le in Hall. lia.
  - split; [split; [intros _ | done] | by intros e [= <-]].
    induction (_readlines_for self disk ticker) as [|line lines IH];
      [discriminate Hall |].
    cbn [forallb] in Hall.
    destruct (6 <=? length (Str.split "," line))%nat eqn:Hlen.
    + right. by apply IH.
    + left. by apply Nat.leb_gt in Hlen.
Qed.

Lemma X7_columns_short_line_witness :
  Exists (λ line, (length (Str.split "," line) < 6)%nat)
    (_readlines_for sample_manager
       {[ "data/ACME.csv" :=
            "2024-01-01,1,2,0,1,100" +:+ TextFile.newline +:+ TextFile.newline ]}
       "acme")
  ∧ read_stock_data sample_manager
      {[ "data/ACME.csv" :=
           "2024-01-01,1,2,0,1,100" +:+ TextFile.newline +:+ TextFile.newline ]}
      "acme" "column"
    = Raise IndexError.
Proof.
  assert (Hshort : Exists (λ line, (length (Str.split "," line) < 6)%nat)
    (_readlines_for sample_manager
       {[ "data/ACME.csv" :=
            "2024-01-01,1,2,0,1,100" +:+ TextFile.newline +:+ TextFile.newline ]}
       "acme")).
  { assert (_readlines_for sample_manager
       {[ "data/ACME.csv" :=
            "2024-01-01,1,2,0,1,100" +:+ TextFile.newline +:+ TextFile.newline ]}
       "acme" = ["2024-01-01,1,2,0,1,100"; ""]) as -> by (vm_compute; reflexivity).
    apply Exists_cons_tl, Exists_cons_hd. simpl. lia. }
  split; [exact Hshort |].
  apply (proj1 (X7_columns_short_line sample_manager _ "acme")). exact Hshort.
Defined.

(** A blank line between the rows. *)
Example columns_blank_line :
  read_stock_data sample_manager
    {[ "data/ACME.csv" :=
         "2024-01-01,1,2,0,1,100" +:+ TextFile.newline +:+ TextFile.newline ]}
    "acme" "column"
  = Raise IndexError.
Proof. vm_compute. reflexivity. Qed.

(** No file: six empty columns. *)
Example columns_without_file :
  read_stock_data sample_manager ∅ "acme" "column" = Ok [[]; []; []; []; []; []].
Proof. vm_compute. reflexivity. Qed.

(** ** Tickers in upper and lower case *)

Lemma upper_char_idemp (c : ascii) :
  Str.upper_char (Str.upper_char c) = Str.upper_char c.
Proof. destruct c as [[] [] [] [] [] [] [] []]; reflexivity. Qed.

Lemma upper_idemp (s : string) : Str.upper (Str.upper s) = Str.upper s.
Proof.
  induction s as [|c s IH]; [reflexivity |]. simpl.
  by rewrite upper_char_idemp, IH.
Qed.

Lemma filename_for_upper (self : DataManager) (t1 t2 : string) :
  Str.upper t1 = Str.upper t2 → _filename_for self t1 = _filename_for self t2.
Proof. unfold _filename_for. by intros ->. Qed.

Lemma readlines_for_upper (self : DataManager) (disk : files) (t1 t2 : string) :
  Str.upper t1 = Str.upper t2 →
  _readlines_for self disk t1 = _readlines_for self disk t2.
Proof.
  intros H. unfold _readlines_for, _has_file_for.
  by rewrite (filename_for_upper self t1 t2 H).
Qed.

(** X8: tickers that differ in the case of their letters only name the
    same series: they have the same file, read the same, are written
    the same and have the same price look-up table. *)
Theorem X8_ticker_case_insensitive {pyfloat} (float : string → res pyfloat)
    (self : DataManager) (t1 t2 : string) :
  Str.upper t1 = Str.upper t2 →
  _filename_for self t1 = _filename_for self t2
  ∧ (∀ disk format,
       read_stock_data self disk t1 format = read_stock_data self disk t2 format)
  ∧ (∀ disk data append,
       write_stock_data self disk t1 data append
       = write_stock_data self disk t2 data append)
  ∧ (∀ disk fill,
       build_price_lut float self disk t1 fill
       = build_price_lut float self disk t2 fill).
Proof.
  intros H.
  pose proof (filename_for_upper self t1 t2 H) as Hfile.
  assert (Hread : ∀ disk format,
    read_stock_data self disk t1 format = read_stock_data self disk t2 format).
  { intros disk format.
    unfold read_stock_data, _read_csv_file_columns_for, _read_csv_file_rows_for.
    by rewrite (readlines_for_upper self disk t1 t2 H). }
  split; [exact Hfile |]. split; [exact Hread |]. split.
  - intros disk data append.
    unfold write_stock_data, data_to_write, _has_file_for, _remove_file_for.
    by rewrite Hread, Hfile.
  - intros disk fill. unfold build_price_lut.
    by rewrite (readlines_for_upper self disk t1 t2 H).
Qed.

Lemma X8_ticker_case_insensitive_witness :
  Str.upper "acme" = Str.upper "Acme"
  ∧ _filename_for sample_manager "acme" = _filename_for sample_manager "Acme"
  ∧ (∀ disk format,
       read_stock_data sample_manager disk "acme" format
       = read_stock_data sample_manager disk "Acme" format)
  ∧ (∀ disk data append,
       write_stock_data sample_manager disk "acme" data append
       = write_stock_data sample_manager disk "Acme" data append)
  ∧ (∀ disk fill,
       build_price_lut Decimal.float sample_manager disk "acme" fill
       = build_price_lut Decimal.float sample_manager disk "Acme" fill).
Proof.
  split; [reflexivity |].
  apply (X8_ticker_case_insensitive Decimal.float sample_manager "acme" "Acme").
  reflexivity.
Defined.

(** ** Lines *)

Lemma contains_lstrip (c : ascii) (s : string) :
  Str.contains c s = false → Str.contains c (Str.lstrip s) = false.
Proof.
  induction s as [|d s IH]; [done |]. simpl.
  intros [Hd Hs]%orb_false_elim.
  destruct (Str.is_space d); [by apply IH |]. simpl. by rewrite Hd, Hs.
Qed.

Lemma contains_rstrip (c : ascii) (s : string) :
  Str.contains c s = false → Str.contains c (Str.rstrip s) = false.
Proof.
  induction s as [|d s IH]; [done |]. simpl.
  intros [Hd Hs]%orb_false_elim. specialize (IH Hs).
  destruct (Str.rstrip s) as [|e r].
  - destruct (Str.is_space d); [reflexivity |]. simpl. by rewrite Hd.
  - rewrite contains_cons, Hd. exact IH.
Qed.

Lemma lstrip_app_cases (s t : string) :
  Str.lstrip (s +:+ t) = Str.lstrip s +:+ t
  ∨ Str.lstrip (s +:+ t) = Str.lstrip t.
Proof.
  induction s as [|c s IH]; [by right |].
  rewrite str_app_cons. simpl.
  destruct (Str.is_space c); [exact IH | by left].
Qed.

(** A line without a line feed but the one that may end it has none
    once trimmed. *)
Lemma strip_line_feed (body : string) :
  Str.contains TextFile.LF body = false →
  Str.contains TextFile.LF (Str.strip (body +:+ TextFile.newline)) = false.
Proof.
  intros Hbody. unfold Str.strip.
  destruct (lstrip_app_cases body TextFile.newline) as [-> | ->].
  - unfold TextFile.newline. rewrite rstrip_app_space by reflexivity.
    by apply contains_rstrip, contains_lstrip.
  - reflexivity.
Qed.

Lemma lines_keepends_shape (s line : string) :
  line ∈ TextFile.lines_keepends s →
  ∃ body, Str.contains TextFile.LF body = false
          ∧ (line = body ∨ line = body +:+ TextFile.newline)
          ∧ ∀ c, Str.contains c body = true → Str.contains c s = true.
Proof.
  revert line. induction s as [|c s IH]; intros line Hin; simpl in Hin.
  - by apply elem_of_nil in Hin.
  - destruct (decide (c = TextFile.LF)) as [-> | Hc].
    + apply elem_of_cons in Hin as [-> | Hin].
      * exists "". split; [reflexivity |]. split; [by right | discriminate].
      * destruct (IH line Hin) as (body & Hb & Hshape & Hsub).
        exists body. split; [done |]. split; [done |].
        intros c' Hc'. rewrite contains_cons, (Hsub c' Hc'). apply orb_true_r.
    + destruct (TextFile.lines_keepends s) as [|l ls] eqn:Hls.
      * apply list_elem_of_singleton in Hin as ->.
        exists (String c ""). split; [| split; [by left |]].
        -- simpl. rewrite bool_decide_eq_false_2; [reflexivity | done].
        -- intros c'. rewrite !contains_cons. simpl.
           rewrite orb_false_r. intros ->. reflexivity.
      * apply elem_of_cons in Hin as [-> | Hin].
        -- destruct (IH l) as (body & Hb & Hshape & Hsub); [by left |].
           exists (String c body). split; [| split].
           ++ rewrite contains_cons, Hb.
              rewrite bool_decide_eq_false_2; [reflexivity | done].
           ++ destruct Hshape as [-> | ->]; [by left | right].
              by rewrite str_app_cons.
           ++ intros c'. rewrite !contains_cons.
              intros [-> | Hc']%orb_true_iff; [reflexivity |].
              rewrite (Hsub c' Hc'). apply orb_true_r.
        -- destruct (IH line) as (body & Hb & Hshape & Hsub); [by right |].
           exists body. split; [done |]. split; [done |].
           intros c' Hc'. rewrite contains_cons, (Hsub c' Hc'). apply orb_true_r.
Qed.

Lemma universal_newlines_no_cr (s : string) :
  Str.contains TextFile.CR (TextFile.universal_newlines s) = false.
Proof.
  assert (H : ∀ (n : nat) s, (String.length s ≤ n)%nat →
    Str.contains TextFile.CR (TextFile.universal_newlines s) = false).
  { clear s. induction n as [|n IH]; intros s Hlen.
    - destruct s; [reflexivity | simpl in Hlen; lia].
    - destruct s as [|c s]; [reflexivity |]. simpl in Hlen. simpl.
      destruct (decide (c = TextFile.CR)) as [-> | Hc].
      + destruct s as [|c' s]; [reflexivity |]. simpl in Hlen.
        destruct (decide (c' = TextFile.LF)) as [-> | Hc'].
        * rewrite contains_cons. simpl. apply IH. lia.
        * rewrite contains_cons. simpl.
          exact (IH (String c' s) ltac:(simpl; lia)).
      + rewrite contains_cons, bool_decide_eq_false_2 by done.
        simpl. apply IH. lia. }
  by apply (H (String.length s)).
Qed.

(** The lines read from a file: trimmed, and without a line end
    inside. *)
Lemma readlines_clean (disk : files) (filename : string) :
  Forall (λ line, Str.strip line = line
                  ∧ Str.contains TextFile.LF line = false
                  ∧ Str.contains TextFile.CR line = false)
    (_readlines disk filename).
Proof.
  unfold _readlines. destruct (_has_file disk filename); [| constructor].
  apply Forall_fmap, Forall_forall. intros line Hin. simpl.
  unfold TextFile.iter_lines in Hin.
  destruct (lines_keepends_shape _ _ Hin) as (body & Hb & Hshape & Hsub).
  assert (Hcr : Str.contains TextFile.CR body = false).
  { destruct (Str.contains TextFile.CR body) eqn:Hcr; [| reflexivity].
    apply Hsub in Hcr. by rewrite universal_newlines_no_cr in Hcr. }
  split; [apply strip_idemp |].
  destruct Hshape as [-> | ->].
  - split; by apply contains_rstrip, contains_lstrip.
  - split; [by apply strip_line_feed |].
    apply contains_rstrip, contains_lstrip.
    rewrite contains_app, Hcr. reflexivity.
Qed.

(** X9: the lines [_readlines] and [_readlines_for] return have no
    white space at either end and no line end (line feed or carriage
    return) inside; a missing file has no lines. *)
Theorem X9_lines_are_trimmed (self : DataManager) (disk : files)
    (filename ticker : string) :
  Forall (λ line, Str.strip line = line
                  ∧ Str.contains TextFile.LF line = false
                  ∧ Str.contains TextFile.CR line = false)
    (_readlines disk filename)
  ∧ Forall (λ line, Str.strip line = line
                    ∧ Str.contains TextFile.LF line = false
                    ∧ Str.contains TextFile.CR line = false)
      (_readlines_for self disk ticker)
  ∧ (disk !! filename = None → _readlines disk filename = [])
  ∧ (disk !! _filename_for self ticker = None →
     _readlines_for self disk ticker = []).
Proof.
  split; [apply readlines_clean |]. split; [apply readlines_clean |]. split.
  - intros Hnone. unfold _readlines, _has_file. rewrite Hnone.
    rewrite bool_decide_eq_false_2; [reflexivity |]. by intros [? ?].
  - apply readlines_for_missing.
Qed.

Lemma X9_lines_are_trimmed_witness :
  sample_disk !! "strategies/none" = None
  ∧ _readlines sample_disk "strategies/none" = []
  ∧ sample_disk !! _filename_for sample_manager "none" = None
  ∧ _readlines_for sample_manager sample_disk "none" = [].
Proof.
  destruct (X9_lines_are_trimmed sample_manager sample_disk
              "strategies/none" "none") as (_ & _ & Hfile & Hticker).
  split; [reflexivity |]. split; [apply Hfile; reflexivity |].
  split; [reflexivity |]. apply Hticker. reflexivity.
Defined.

(** ** More on price look-up tables *)

(** X10: a ticker without a file, or with an empty one, has the empty
    table, with [fill] and without; nothing is raised. *)
Theorem X10_price_lut_without_rows {pyfloat} (float : string → res pyfloat)
    (self : DataManager) (disk : files) (ticker : string) (fill : bool) :
  disk !! _filename_for self ticker = None
  ∨ disk !! _filename_for self ticker = Some "" →
  build_price_lut float self disk ticker fill = Some (Ok ∅).
Proof.
  intros Hfile.
  assert (_readlines_for self disk ticker = []) as Hlines.
  { destruct Hfile as [Hnone | Hempty].
    - by apply readlines_for_missing.
    - by rewrite (readlines_for_content _ _ _ _ Hempty). }
  unfold build_price_lut. rewrite Hlines. reflexivity.
Qed.

Lemma X10_price_lut_without_rows_witness :
  (sample_disk !! _filename_for sample_manager "none" = None
   ∨ sample_disk !! _filename_for sample_manager "none" = Some "")
  ∧ build_price_lut Decimal.float sample_manager sample_disk "none" true
    = Some (Ok ∅).
Proof.
  assert (H : sample_disk !! _filename_for sample_manager "none" = None
              ∨ sample_disk !! _filename_for sample_manager "none" = Some "")
    by (left; vm_compute; reflexivity).
  split; [exact H |].
  apply (X10_price_lut_without_rows Decimal.float sample_manager sample_disk
           "none" true H).
Defined.

(** X11: for a series of two rows or more with strictly ascending
    dates, the table built with [fill] extends the table built without:
    filling adds the dates between the rows and changes no entry. *)
Theorem X11_fill_extends_rows {pyfloat} (float : string → res pyfloat)
    (self : DataManager) (disk : files) (ticker : string)
    (entries : list (Datetime.datetime * pyfloat)) :
  series_of_lines float (_readlines_for self disk ticker) entries →
  dates_strictly_ascending entries →
  (2 ≤ length entries)%nat →
  ∃ lut_fill lut_rows : gmap string pyfloat,
    build_price_lut float self disk ticker true = Some (Ok lut_fill)
    ∧ build_price_lut float self disk ticker false = Some (Ok lut_rows)
    ∧ lut_rows ⊆ lut_fill.
Proof.
  intros Hseries Hasc Hlen.
  destruct (build_price_lut_fill pyfloat float self disk ticker entries
              Hseries Hasc Hlen)
    as (lut_fill & d0 & v0 & dl & vl & H0 & Hlast & Hfill & _ & _ & Hval).
  destruct (build_price_lut_nofill pyfloat float self disk ticker entries
              Hseries Hasc Hlen)
    as (lut_rows & Hrows & Hkeys).
  exists lut_fill, lut_rows. split; [done |]. split; [done |].
  apply map_subseteq_spec. intros k w (j & dj & Hj & ->)%Hkeys.
  pose proof (series_valid pyfloat float _ _ _ _ _ Hseries Hj) as Hvj.
  rewrite last_lookup in Hlast.
  pose proof (series_valid pyfloat float _ _ _ _ _ Hseries Hlast) as Hvl.
  apply (Hval j dj w dj Hj Hvj).
  - apply ltb_rank_false; [done | done | lia].
  - intros d' v' HSj. by eapply Hasc.
  - apply ltb_rank_false; [done | done |].
    eapply (ascending_rank_le pyfloat float _ _ j (pred (length entries)));
      [done | done | | done | done].
    apply lookup_lt_Some in Hj. lia.
Qed.

Lemma weekend_series :
  series_of_lines Decimal.float
    (_readlines_for sample_manager weekend_disk "acme") weekend_entries.
Proof.
  rewrite weekend_lines. repeat constructor.
  - exists "2024-01-05", "10". repeat split; reflexivity.
  - exists "2024-01-08", "20". repeat split; reflexivity.
Qed.

Lemma weekend_ascending : dates_strictly_ascending weekend_entries.
Proof. intros [|[|i]] d v d' v' Hi HSi; simplify_eq/=. reflexivity. Qed.

Lemma X11_fill_extends_rows_witness :
  series_of_lines Decimal.float
    (_readlines_for sample_manager weekend_disk "acme") weekend_entries
  ∧ dates_strictly_ascending weekend_entries
  ∧ (2 ≤ length weekend_entries)%nat
  ∧ ∃ lut_fill lut_rows : gmap string Decimal.decimal,
      build_price_lut Decimal.float sample_manager weekend_disk "acme" true
      = Some (Ok lut_fill)
      ∧ build_price_lut Decimal.float sample_manager weekend_disk "acme" false
        = Some (Ok lut_rows)
      ∧ lut_rows ⊆ lut_fill.
Proof.
  assert (Hlen : (2 ≤ length weekend_entries)%nat) by (simpl; lia).
  split; [exact weekend_series |]. split; [exact weekend_ascending |].
  split; [exact Hlen |].
  apply (X11_fill_extends_rows Decimal.float sample_manager weekend_disk "acme"
           weekend_entries weekend_series weekend_ascending Hlen).
Defined.

(** X12: rows out of order are lost.  In a series of two rows whose
    second date is not after the first, the [while] loop makes no turn:
    the table holds the second row alone, and the closing price of the
    first row is not even read. *)
Theorem X12_price_lut_two_rows_out_of_order {pyfloat}
    (float : string → res pyfloat) (self : DataManager) (disk : files)
    (ticker : string) (fill : bool) (line1 line2 date1 date2 close2 : string)
    (d1 d2 : Datetime.datetime) (v2 : pyfloat) :
  _readlines_for self disk ticker = [line1; line2] →
  Str.split "," line1 !! 0 = Some date1 → Datetime.strptime date1 = Ok d1 →
  Str.split "," line2 !! 0 = Some date2 → Datetime.strptime date2 = Ok d2 →
  Datetime.ltb d1 d2 = false →
  Str.split "," line2 !! 4 = Some close2 → float close2 = Ok v2 →
  build_price_lut float self disk ticker fill
  = Some (Ok {[ Datetime.strftime d2 := v2 ]}).
Proof.
  intros Hlines Hdate1 Hd1 Hdate2 Hd2 Horder Hclose2 Hv2.
  unfold build_price_lut. rewrite Hlines.
  destruct (decide _) as [Hlen | _]; [discriminate Hlen |].
  destruct (decide _) as [Hlen | _]; [discriminate Hlen |].
  change (seq 0 _) with [0]. cbn [lut_for].
  rewrite (lut_for_body_run pyfloat float fill _ 0 line1 line2 date1 date2
             d1 d2 d1 _ ∅); try done.
  - cbn [local price_lookup next_date next_line_data mbind res_bind].
    rewrite (py_index_Some _ _ _ Hclose2). cbn [mbind res_bind].
    rewrite Hv2. reflexivity.
  - by apply while_loop_done.
Qed.

Lemma X12_price_lut_two_rows_out_of_order_witness :
  build_price_lut Decimal.float sample_manager
    {[ "data/ACME.csv" :=
         "2024-01-08,19,21,18,x,700" +:+ TextFile.newline +:+
         "2024-01-05,9,11,8,10,500" +:+ TextFile.newline ]} "acme" true
  = Some (Ok {[ "2024-01-05" := {| Decimal.mantissa := 10; Decimal.scale := 0 |} ]}).
Proof.
  apply (X12_price_lut_two_rows_out_of_order Decimal.float sample_manager
           _ "acme" true
           "2024-01-08,19,21,18,x,700" "2024-01-05,9,11,8,10,500"
           "2024-01-08" "2024-01-05" "10"
           {| Datetime.year := 2024; Datetime.month := 1; Datetime.day := 8 |}
           {| Datetime.year := 2024; Datetime.month := 1; Datetime.day := 5 |});
    vm_compute; reflexivity.
Defined.

(** ** More on strategy files *)

Section StrategyFacts.

Variable pyfloat : Type.
Variable float : string → res pyfloat.

Lemma build_strategy_fold (disk : files) (strategy_name strategy_dir : string) :
  build_strategy float disk strategy_name strategy_dir
  = foldl (strategy_step float) (Ok ({| assets := ∅; positions := [] |}, ∅, ∅))
      (_readlines disk (strategy_dir +:+ strategy_name)).
Proof. reflexivity. Qed.

(** A turn of the loop that succeeds. *)
Lemma strategy_step_ok (s s' : strategy pyfloat)
    (stocks stocks' inds inds' : gset string) (line : string) :
  strategy_step float (Ok (s, stocks, inds)) line = Ok (s', stocks', inds') →
  ∃ (r t b sl : string) (rv : pyfloat) (tb ib ts is_ : gset string),
    Str.split "," line = [r; t; b; sl]
    ∧ _parse_signal b = Ok (tb, ib)
    ∧ _parse_signal sl = Ok (ts, is_)
    ∧ float r = Ok rv
    ∧ s' = {| assets := assets s ∪ {[Str.upper t]};
              positions := positions s ++
                [{| is_holding := false; ratio := rv; ticker := Str.upper t;
                    buy_signal := b; sell_signal := sl |}] |}
    ∧ stocks' = stocks ∪ {[Str.upper t]} ∪ tb ∪ ts
    ∧ inds' = inds ∪ ib ∪ is_.
Proof.
  unfold strategy_step. cbn [mbind res_bind].
  destruct (Str.split "," line) as [|r [|t [|b [|sl [|x l]]]]];
    cbn [unpack4 mbind res_bind foldl]; try (intros ?; discriminate).
  destruct (_parse_signal b) as [[tb ib]|] eqn:Hb; cbn [mbind res_bind];
    [| intros ?; discriminate].
  destruct (_parse_signal sl) as [[ts is_]|] eqn:Hsl; cbn [mbind res_bind];
    [| intros ?; discriminate].
  destruct (float r) as [rv|] eqn:Hr; cbn [mbind res_bind];
    [| intros ?; discriminate].
  intros [= <- <- <-].
  exists r, t, b, sl, rv, tb, ib, ts, is_. repeat split; done.
Qed.

(** What the loop has built when it ends without an error. *)
Lemma strategy_fold_ok (lines : list string) (s : strategy pyfloat)
    (stocks inds : gset string) :
  foldl (strategy_step float) (Ok ({| assets := ∅; positions := [] |}, ∅, ∅))
    lines = Ok (s, stocks, inds) →
  Forall2 (position_of_line float) (positions s) lines
  ∧ assets s = list_to_set (ticker <$> positions s)
  ∧ (∀ x, x ∈ stocks
          ↔ x ∈ assets s ∨ ∃ p, p ∈ positions s ∧ signal_ticker p x)
  ∧ (∀ x, x ∈ inds ↔ ∃ p, p ∈ positions s ∧ signal_indicator p x).
Proof.
  revert s stocks inds.
  induction lines as [|line lines IH] using rev_ind; intros s stocks inds.
  - intros [= <- <- <-]. simpl. split; [constructor |]. split; [reflexivity |].
    split; intros x; split.
    + intros []%elem_of_empty.
    + intros [[]%elem_of_empty | (p & []%elem_of_nil & _)].
    + intros []%elem_of_empty.
    + intros (p & []%elem_of_nil & _).
  - rewrite foldl_app. cbn [foldl].
    destruct (foldl _ _ lines) as [[[s0 stocks0] inds0]|e];
      [| intros ?; discriminate].
    destruct (IH s0 stocks0 inds0 eq_refl) as (Hpos & Hassets & Hstocks & Hinds).
    intros (r & t & b & sl & rv & tb & ib & ts & is_ & Hsplit & Hb & Hsl & Hr
            & -> & -> & ->)%strategy_step_ok.
    cbn [assets positions].
    set (p := {| is_holding := false; ratio := rv; ticker := Str.upper t;
                 buy_signal := b; sell_signal := sl |}).
    split; [| split; [| split]].
    + apply Forall2_app; [exact Hpos |]. constructor; [| constructor].
      exists r, t, b, sl. simpl. rewrite Hb, Hsl. by repeat split.
    + rewrite fmap_app, list_to_set_app_L, Hassets. simpl.
      by rewrite union_empty_r_L.
    + intros x. rewrite !elem_of_union, Hstocks, elem_of_singleton. split.
      * intros [[[[Hx | (q & Hq & Hsig)] | ->] | Hx] | Hx].
        -- by left; left.
        -- right. exists q. split; [apply elem_of_app; by left | done].
        -- left. by right.
        -- right. exists p. split; [apply elem_of_app; right; by left |].
           exists b, tb, ib. by split; [left |].
        -- right. exists p. split; [apply elem_of_app; right; by left |].
           exists sl, ts, is_. by split; [right |].
      * intros [[Hx | ->] | (q & Hq & Hsig)].
        -- by left; left; left; left.
        -- by left; left; right.
        -- apply elem_of_app in Hq as [Hq | ->%list_elem_of_singleton].
           ++ left. left. left. right. by exists q.
           ++ destruct Hsig as (sig & tk & ind & [-> | ->] & Hparse & Hx);
                simpl in Hparse;
                [rewrite Hb in Hparse | rewrite Hsl in Hparse];
                injection Hparse as <- <-; [left; by right | by right].
    + intros x. rewrite !elem_of_union, Hinds. split.
      * intros [[(q & Hq & Hsig) | Hx] | Hx].
        -- exists q. split; [apply elem_of_app; by left | done].
        -- exists p. split; [apply elem_of_app; right; by left |].
           exists b, tb, ib. by split; [left |].
        -- exists p. split; [apply elem_of_app; right; by left |].
           exists sl, ts, is_. by split; [right |].
      * intros (q & Hq & Hsig).
        apply elem_of_app in Hq as [Hq | ->%list_elem_of_singleton].
        -- left. left. by exists q.
        -- destruct Hsig as (sig & tk & ind & [-> | ->] & Hparse & Hx);
             simpl in Hparse;
             [rewrite Hb in Hparse | rewrite Hsl in Hparse];
             injection Hparse as <- <-; [left; by right | by right].
Qed.

(** A turn of the loop on a line that is accepted. *)
Lemma strategy_step_line_ok (s : strategy pyfloat) (stocks inds : gset string)
    (line : string) :
  strategy_line_ok float line →
  ∃ s' stocks' inds',
    strategy_step float (Ok (s, stocks, inds)) line = Ok (s', stocks', inds').
Proof.
  intros (r & t & b & sl & Hsplit & Hr & Hb & Hsl).
  unfold strategy_step. cbn [mbind res_bind]. rewrite Hsplit.
  cbn [unpack4 mbind res_bind foldl].
  destruct (_parse_signal b) as [[tb ib]|]; [| discriminate Hb].
  cbn [mbind res_bind].
  destruct (_parse_signal sl) as [[ts is_]|]; [| discriminate Hsl].
  cbn [mbind res_bind].
  destruct (float r) as [rv|]; [| discriminate Hr].
  cbn [mbind res_bind]. eauto.
Qed.

Lemma strategy_fold_lines_ok (lines : list string) (s : strategy pyfloat)
    (stocks inds : gset string) :
  Forall (strategy_line_ok float) lines →
  ∃ s' stocks' inds',
    foldl (strategy_step float) (Ok (s, stocks, inds)) lines
    = Ok (s', stocks', inds').
Proof.
  intros Hlines. revert s stocks inds.
  induction Hlines as [|line lines Hline _ IH]; intros s stocks inds.
  - simpl. eauto.
  - cbn [foldl].
    destruct (strategy_step_line_ok s stocks inds line Hline)
      as (s1 & stocks1 & inds1 & ->).
    apply IH.
Qed.

Lemma position_line_ok (p : position pyfloat) (line : string) :
  position_of_line float p line → strategy_line_ok float line.
Proof.
  intros (r & t & b & sl & Hsplit & Hr & _ & _ & _ & _ & Hb & Hsl).
  exists r, t, b, sl. rewrite Hr. by repeat split.
Qed.

End StrategyFacts.

(** X13: the strategy that [build_strategy] returns has one position
    for each line of the file, in the order of the file: the position of
    a line [ratio,ticker,buy,sell] has the ratio read as a number, the
    ticker in upper case, the two signals as written and [is_holding]
    false.  The assets are the tickers of the positions; the stocks
    needed are the assets and the instruments of the signals, the
    indicators needed are the indicators of the signals, and nothing
    else. *)
Theorem X13_build_strategy_positions {pyfloat} (float : string → res pyfloat)
    (disk : files) (strategy_name strategy_dir : string)
    (s : strategy pyfloat) (stocks_needed indicators_needed : gset string) :
  build_strategy float disk strategy_name strategy_dir
  = Ok (s, stocks_needed, indicators_needed) →
  Forall2 (position_of_line float) (positions s)
    (_readlines disk (strategy_dir +:+ strategy_name))
  ∧ assets s = list_to_set (ticker <$> positions s)
  ∧ (∀ x, x ∈ stocks_needed
          ↔ x ∈ assets s ∨ ∃ p, p ∈ positions s ∧ signal_ticker p x)
  ∧ (∀ x, x ∈ indicators_needed
          ↔ ∃ p, p ∈ positions s ∧ signal_indicator p x).
Proof. rewrite build_strategy_fold. apply strategy_fold_ok. Qed.

Lemma X13_build_strategy_positions_witness :
  let s := {| assets := {[ "AAPL" ]};
              positions :=
                [ {| is_holding := false;
                     ratio := {| Decimal.mantissa := 5; Decimal.scale := 1 |};
                     ticker := "AAPL";
                     buy_signal := "ALWAYS";
                     sell_signal := "CLOSE~PRICE < AAPL~SMA20" |} ] |} in
  build_strategy Decimal.float sample_disk "basic" "strategies/"
  = Ok (s, {[ "AAPL"; "CLOSE" ]}, {[ "SMA20" ]})
  ∧ Forall2 (position_of_line Decimal.float) (positions s)
      (_readlines sample_disk ("strategies/" +:+ "basic"))
  ∧ assets s = list_to_set (ticker <$> positions s)
  ∧ (∀ x, x ∈ ({[ "AAPL"; "CLOSE" ]} : gset string)
          ↔ x ∈ assets s ∨ ∃ p, p ∈ positions s ∧ signal_ticker p x)
  ∧ (∀ x, x ∈ ({[ "SMA20" ]} : gset string)
          ↔ ∃ p, p ∈ positions s ∧ signal_indicator p x).
Proof.
  intros s.
  assert (Hrun : build_strategy Decimal.float sample_disk "basic" "strategies/"
                 = Ok (s, {[ "AAPL"; "CLOSE" ]}, {[ "SMA20" ]}))
    by (vm_compute; reflexivity).
  split; [exact Hrun |].
  apply (X13_build_strategy_positions Decimal.float sample_disk "basic"
           "strategies/" s _ _ Hrun).
Defined.

(** X14: [build_strategy] returns a strategy exactly when every line
    of the file has four fields between commas, a ratio that [float]
    reads and two signals that parse; otherwise it raises.  A file that
    is not there has no lines: its strategy has no position. *)
Theorem X14_build_strategy_succeeds_iff {pyfloat}
    (float : string → res pyfloat) (disk : files)
    (strategy_name strategy_dir : string) :
  (is_ok (build_strategy float disk strategy_name strategy_dir) = true
   ↔ Forall (strategy_line_ok float)
       (_readlines disk (strategy_dir +:+ strategy_name)))
  ∧ (disk !! (strategy_dir +:+ strategy_name) = None →
     build_strategy float disk strategy_name strategy_dir
     = Ok ({| assets := ∅; positions := [] |}, ∅, ∅)).
Proof.
  split.
  - rewrite build_strategy_fold. split.
    + destruct (foldl _ _ _) as [[[s stocks] inds]|e] eqn:Hrun;
        [intros _ | discriminate].
      apply strategy_fold_ok in Hrun as (Hpos & _).
      clear -Hpos. induction Hpos as [|p line ps lines Hp _ IH]; constructor;
        [by eapply position_line_ok | exact IH].
    + intros Hlines.
      destruct (strategy_fold_lines_ok pyfloat float _
                  {| assets := ∅; positions := [] |} ∅ ∅ Hlines)
        as (s & stocks & inds & ->).
      reflexivity.
  - intros Hnone. unfold build_strategy, _readlines, _has_file.
    rewrite Hnone. rewrite bool_decide_eq_false_2; [reflexivity |].
    by intros [? ?].
Qed.

Lemma X14_build_strategy_succeeds_iff_witness :
  sample_disk !! ("strategies/" +:+ "none") = None
  ∧ build_strategy Decimal.float sample_disk "none" "strategies/"
    = Ok ({| assets := ∅; positions := [] |}, ∅, ∅).
Proof.
  split; [reflexivity |].
  apply (proj2 (X14_build_strategy_succeeds_iff Decimal.float sample_disk
                  "none" "strategies/")).
  reflexivity.
Defined.

(** A blank line in a strategy file. *)
Example build_strategy_blank_line :
  build_strategy Decimal.float
    {[ "strategies/basic" :=
         "0.5,AAPL,ALWAYS,NEVER" +:+ TextFile.newline +:+ TextFile.newline ]}
    "basic" "strategies/"
  = Raise ValueError.
Proof. vm_compute. reflexivity. Qed.

(** ** More on signals *)

(** The indicators a term adds: its indicator in upper case, unless it
    is written PRICE. *)
Lemma parse_signal_terms (signal_code a op b ta ia tb ib : string) :
  Str.split " " signal_code = [a; op; b] →
  Str.split "~" a = [ta; ia] →
  Str.split "~" b = [tb; ib] →
  _parse_signal signal_code
  = Ok ({[ Str.upper ta; Str.upper tb ]},
        (if decide (ia = "PRICE") then ∅ else {[ Str.upper ia ]})
        ∪ (if decide (ib = "PRICE") then ∅ else {[ Str.upper ib ]})).
Proof.
  intros Hs Ha Hb.
  rewrite parse_signal_unfold by (eapply three_tokens_not_literal; exact Hs).
  rewrite Hs. cbn [unpack3 mbind res_bind foldl]. rewrite Ha.
  cbn [unpack2 mbind res_bind].
  destruct (decide (ia ∈ ["PRICE"])) as [Hia | Hia];
    cbn [mbind res_bind]; rewrite Hb; cbn [unpack2 mbind res_bind];
    destruct (decide (ib ∈ ["PRICE"])) as [Hib | Hib];
    rewrite list_elem_of_singleton in Hia, Hib;
    destruct (decide (ia = "PRICE")); try contradiction;
    destruct (decide (ib = "PRICE")); try contradiction;
    by rewrite ?union_empty_l_L, ?union_empty_r_L.
Qed.

(** A signal that parses is one of the two literals or has three
    tokens, the first and the last of two parts. *)
Lemma parse_signal_ok_inv (signal_code : string) (tickers indicators : gset string) :
  _parse_signal signal_code = Ok (tickers, indicators) →
  (signal_code ∈ ["ALWAYS"; "NEVER"] ∧ tickers = ∅ ∧ indicators = ∅)
  ∨ ∃ a op b ta ia tb ib,
      Str.split " " signal_code = [a; op; b]
      ∧ Str.split "~" a = [ta; ia]
      ∧ Str.split "~" b = [tb; ib].
Proof.
  intros Hparse. unfold _parse_signal in Hparse.
  destruct (decide (signal_code ∈ ["ALWAYS"; "NEVER"])) as [Hlit | Hlit].
  - left. injection Hparse as <- <-. split; [exact Hlit | split; reflexivity].
  - right.
    destruct (Str.split " " signal_code) as [|a [|op [|b [|x l]]]] eqn:Hs;
      cbn [unpack3 mbind res_bind foldl] in Hparse; try discriminate Hparse.
    destruct (Str.split "~" a) as [|ta [|ia [|x l]]] eqn:Ha;
      cbn [unpack2 mbind res_bind] in Hparse; try discriminate Hparse.
    destruct (Str.split "~" b) as [|tb [|ib [|x l]]] eqn:Hb;
      try (destruct (decide (ia ∈ ["PRICE"]));
           cbn [unpack2 mbind res_bind] in Hparse; discriminate Hparse).
    by exists a, op, b, ta, ia, tb, ib.
Qed.

(** X15: a signal [a~x op b~y] of three tokens between single spaces,
    whose first and last token have two parts around a tilde, parses:
    the instruments are [a] and [b] in upper case, the indicators are
    [x] and [y] in upper case but for those written PRICE; the token in
    the middle is not looked at. *)
Theorem X15_parse_signal_terms (signal_code a op b ta ia tb ib : string) :
  Str.split " " signal_code = [a; op; b] →
  Str.split "~" a = [ta; ia] →
  Str.split "~" b = [tb; ib] →
  _parse_signal signal_code
  = Ok ({[ Str.upper ta; Str.upper tb ]},
        (if decide (ia = "PRICE") then ∅ else {[ Str.upper ia ]})
        ∪ (if decide (ib = "PRICE") then ∅ else {[ Str.upper ib ]})).
Proof. apply parse_signal_terms. Qed.

Lemma X15_parse_signal_terms_witness :
  _parse_signal "close~PRICE crosses aapl~sma20"
  = Ok ({[ "CLOSE"; "AAPL" ]}, ∅ ∪ {[ "SMA20" ]}).
Proof.
  apply (X15_parse_signal_terms "close~PRICE crosses aapl~sma20"
           "close~PRICE" "crosses" "aapl~sma20" "close" "PRICE" "aapl" "sma20");
    reflexivity.
Defined.

(** X16: whatever signal parses, the instruments and the indicators
    returned are in upper case: none of them has a lower-case letter. *)
Theorem X16_parse_signal_upper_case (signal_code : string)
    (tickers indicators : gset string) :
  _parse_signal signal_code = Ok (tickers, indicators) →
  ∀ x, x ∈ tickers ∪ indicators → Str.upper x = x.
Proof.
  intros Hparse x Hx.
  destruct (parse_signal_ok_inv _ _ _ Hparse)
    as [(_ & -> & ->) | (a & op & b & ta & ia & tb & ib & Hs & Ha & Hb)].
  - rewrite union_empty_l_L in Hx. by apply elem_of_empty in Hx.
  - rewrite (parse_signal_terms _ _ _ _ _ _ _ _ Hs Ha Hb) in Hparse.
    injection Hparse as <- <-.
    destruct (decide (ia = "PRICE")), (decide (ib = "PRICE"));
      set_unfold; destruct Hx as [[-> | ->] | Hx];
      try apply upper_idemp; destruct Hx as [Hx | Hx];
      try contradiction; subst x; apply upper_idemp.
Qed.

Lemma X16_parse_signal_upper_case_witness :
  _parse_signal "close~PRICE < aapl~sma20" = Ok ({[ "CLOSE"; "AAPL" ]}, {[ "SMA20" ]})
  ∧ ∀ x, x ∈ ({[ "CLOSE"; "AAPL" ]} : gset string) ∪ {[ "SMA20" ]} →
         Str.upper x = x.
Proof.
  assert (H : _parse_signal "close~PRICE < aapl~sma20"
              = Ok ({[ "CLOSE"; "AAPL" ]}, {[ "SMA20" ]}))
    by (vm_compute; reflexivity).
  split; [exact H |].
  apply (X16_parse_signal_upper_case "close~PRICE < aapl~sma20" _ _ H).
Defined.
